(** * Network utilization and statistical multiplexing calculators

    A shallow embedding of the two Python modules of the repository,

    - [NetworkUtilizationCalculator.py]
      ([calculate_transmission_time], [calculate_network_utilization]), and
    - [TransmissionTimeStatisticalMultiplexingCalculator.py]
      ([kibs_to_bytes], [mibs_to_bytes],
      [calculate_transmission_time_statistical_multiplexing], together with
      the [heapq.heappush] of the Python library that it calls),

    followed by the properties of the specification that are stated about
    them.

    Numbers.  Python's [int] is [Z].  Python's [float] has two readings
    here.

    - The exact reading, in the modules [NetworkUtilizationCalculator] and
      [TransmissionTimeStatisticalMultiplexingCalculator]: a [float] is a
      rational number, [Qc].  The order of the operations, true division
      raising [ZeroDivisionError] on a zero divisor and [math.ceil]
      returning an [int] are those of the code; the rounding of every
      operation to binary64 and the [OverflowError] of a conversion or a
      quotient that is too large are left out.  Parameters documented as
      "int or float" are taken as [Qc], the [int] values being embedded
      with [Qc_of_Z].  This reading carries the statements on the control
      flow, the heap, the order of the output and the subscripts, whose
      data are small integers.
    - The binary64 reading, in the module [Binary64]: a [float] is an IEEE
      754 binary64 ([PrimFloat.float]), a number is an [int] or a [float],
      an [int] operand is converted as Python converts it, and the
      exceptions of the arithmetic ([ZeroDivisionError], [OverflowError],
      [ValueError]) are raised where Python raises them.  This reading
      carries the statements on the arithmetic itself.

    Exceptions.  A computation returns [Ok v] or [Raise e], [e] being
    [ZeroDivisionError] (true division), [IndexError] (list subscript),
    [OverflowError] (an [int] or a quotient too large for a [float], the
    ceiling of an infinity) or [ValueError] (the ceiling of a nan).

    Dictionaries.  Each function reads its [known_data] at a fixed set of
    keys, each with a value of one type: a record with one field per key.
    A dictionary that lacks a key is not a value of that record. *)

From Stdlib Require Import ZArith QArith Qcanon Qround Lia Permutation Sorted Floats.
From stdpp Require Import base list numbers sorting.
From Equations Require Import Equations.

(** Decimal literals such as [0.008] stand for the nearest binary64, as
    in Python. *)
#[local] Set Warnings "-inexact-float".

Local Open Scope Z_scope.

(** ** Python values and exceptions *)

Module Py.

Inductive exception : Type :=
| ZeroDivisionError
| IndexError
| OverflowError
| ValueError.

Inductive result (A : Type) : Type :=
| Ok (a : A)
| Raise (e : exception).
Arguments Ok {A} a.
Arguments Raise {A} e.

Definition bind {A B : Type} (m : result A) (k : A -> result B) : result B :=
  match m with
  | Ok a => k a
  | Raise e => Raise e
  end.

(** [float(n)] for an [int] [n], and the implicit conversion of an [int]
    operand in mixed arithmetic, in the exact reading: the integer itself,
    neither rounded nor refused for its size. *)
Definition float (n : Z) : Qc := Qc_of_Z n.

(** [x / y]: true division, in the exact reading: the quotient is not
    rounded. *)
Definition truediv (x y : Qc) : result Qc :=
  if decide (y = 0%Qc) then Raise ZeroDivisionError else Ok (x / y)%Qc.

(** [math.ceil(x)], in the exact reading. *)
Definition ceil (x : Qc) : Z := Qceiling x.

(** [l[i]] for an index [i >= 0]. *)
Definition getitem {A : Type} (l : list A) (i : nat) : result A :=
  match l !! i with
  | Some x => Ok x
  | None => Raise IndexError
  end.

(** [[f(x) for x in l]] where [f] may raise: elements are evaluated from
    left to right and the first exception ends the comprehension. *)
Fixpoint comprehension {A B : Type} (f : A -> result B) (l : list A)
  : result (list B) :=
  match l with
  | [] => Ok []
  | x :: l' =>
      bind (f x) (fun y =>
      bind (comprehension f l') (fun ys => Ok (y :: ys)))
  end.

(** [for x in l: s = body(x, s)] where the body may raise. *)
Fixpoint for_each {A S : Type} (body : A -> S -> result S) (l : list A) (s : S)
  : result S :=
  match l with
  | [] => Ok s
  | x :: l' => bind (body x s) (for_each body l')
  end.

(** [enumerate(l)] *)
Definition enumerate {A : Type} (l : list A) : list (nat * A) :=
  zip (seq 0 (length l)) l.

(** [range(lo, hi)] *)
Definition range (lo hi : nat) : list nat := seq lo (hi - lo).

End Py.

Import Py.

(** [result] is a monad; stdpp's notation [x ← m; k] sequences two
  statements, the second one being skipped when the first one raises. *)
#[global] Instance result_ret : MRet result := @Ok.
#[global] Instance result_bind : MBind result := fun A B k m => bind m k.

(** Proofs unfold the arithmetic and the subscripts through their lemmas. *)
Arguments truediv : simpl never.
Arguments getitem : simpl never.

(** ** NetworkUtilizationCalculator.py, exact reading *)

Module NetworkUtilizationCalculator.

(** [calculate_transmission_time(length_in_bytes: int, rate_in_Mbps: float)]:
    the result is in milliseconds. *)
Definition calculate_transmission_time (length_in_bytes : Z) (rate_in_Mbps : Qc)
  : result Qc :=
  let packet_length := length_in_bytes in
  let rate := rate_in_Mbps in
  (* convert all applicable values to bits *)
  let packet_length := packet_length * 8 in
  let rate := (rate * float (1000 * 1000))%Qc in
  (* transmission time in seconds *)
  transmission_time ← truediv (float packet_length) rate;
  (* convert transmission time to milliseconds *)
  let transmission_time := (transmission_time * float 1000)%Qc in
  Ok transmission_time.

(** The dictionary [known_data], with its three keys. *)
Record known_data : Type := Known_data {
  length_in_bytes : Z;
  rate_in_Mbps : Qc;
  rtt_in_ms : Qc
}.

(** [calculate_network_utilization(known_data, window_size=None)] *)
Definition calculate_network_utilization (kd : known_data) (window_size : option Z)
  : result Qc :=
  let packet_length := length_in_bytes kd in
  let rate := rate_in_Mbps kd in
  let rtt := rtt_in_ms kd in
  transmission_time ← calculate_transmission_time packet_length rate;
  let total_time := (transmission_time + rtt)%Qc in
  utilization ← truediv transmission_time total_time;
  pipelined_packet_count ←
    match window_size with
    | None => Ok (float 1)
    | Some window_size => truediv (float window_size) (float packet_length)
    end;
  let utilization := (utilization * pipelined_packet_count)%Qc in
  Ok utilization.

(** The data of [main]. *)
Definition main_known_data : known_data :=
  {| length_in_bytes := 1000; rate_in_Mbps := float 1000; rtt_in_ms := float (15 * 2) |}.
Definition main_window_size_in_bytes : Z := 5020.

End NetworkUtilizationCalculator.

(** ** heapq.heappush (Python library, [Lib/heapq.py]) *)

Module heapq.

(** The items pushed by the scheduler: [(packet_count, turn_order)]. *)
Abbreviation item := (Z * nat)%type.

(** [a < b] on tuples: lexicographic. *)
Definition item_lt (a b : item) : bool :=
  (a.1 <? b.1) || ((a.1 =? b.1) && (a.2 <? b.2)%nat).

(** The [while pos > startpos] loop of [_siftdown]: it moves parents down
    until the place of [newitem] is found, and returns the list and that
    place. *)
Equations? _siftdown_loop (heap : list item) (newitem : item) (startpos pos : nat)
  : result (list item * nat) by wf pos lt :=
  _siftdown_loop heap newitem startpos pos with decide (startpos < pos)%nat := {
    | right _ => Ok (heap, pos)
    | left _ =>
        let parentpos := Nat.shiftr (pos - 1) 1 in
        parent ← getitem heap parentpos;
        if item_lt newitem parent
        then _siftdown_loop (<[pos := parent]> heap) newitem startpos parentpos
        else Ok (heap, pos) }.
Proof.
  clear -l. change (Nat.div2 (pos - 1) < pos)%nat.
  pose proof (Nat.div2_decr (pos - 1) (pos - 1)). lia.
Qed.

(** [_siftdown(heap, startpos, pos)] *)
Definition _siftdown (heap : list item) (startpos pos : nat) : result (list item) :=
  newitem ← getitem heap pos;
  '(heap, pos) ← _siftdown_loop heap newitem startpos pos;
  Ok (<[pos := newitem]> heap).

(** [heappush(heap, item)] *)
Definition heappush (heap : list item) (x : item) : result (list item) :=
  let heap := heap ++ [x] in
  _siftdown heap 0 (length heap - 1).

End heapq.

(** ** TransmissionTimeStatisticalMultiplexingCalculator.py, exact reading *)

Module TransmissionTimeStatisticalMultiplexingCalculator.

Import heapq.

(** [kibs_to_bytes(kibs)] *)
Definition kibs_to_bytes (kibs : Qc) : Qc := (kibs * float 1024)%Qc.

(** [mibs_to_bytes(mibs)] *)
Definition mibs_to_bytes (mibs : Qc) : Qc := (mibs * float 1024 * float 1024)%Qc.

(** The dictionary [known_data], with its six keys. *)
Record known_data : Type := Known_data {
  total_link_rate_Mbps : Qc;
  sharing_computers_count : Z;
  starting_time_seconds : Qc;
  file_sizes_bytes : list Qc;
  packet_payload_size_bytes : Qc;
  packet_header_size_bytes : Qc
}.

(** Line 57: the number of packet payloads needed to send each file,
    [[ceil(size_in_bytes / packet_payload_size_bytes) for size_in_bytes in file_sizes_bytes]]. *)
Definition needed_packets_of (file_sizes_bytes : list Qc) (packet_payload_size_bytes : Qc)
  : result (list Z) :=
  comprehension
    (fun size_in_bytes => q ← truediv size_in_bytes packet_payload_size_bytes; Ok (ceil q))
    file_sizes_bytes.

(** Lines 63-65: the list built by pushing [(packet_count, turn_order)] for
    every file, in turn order, on an empty heap. *)
Definition file_order_indices_of (needed_packets : list Z) : result (list item) :=
  for_each
    (fun '(turn_order, packet_count) heap => heappush heap (packet_count, turn_order))
    (enumerate needed_packets) [].

(** Lines 75-80 and 95-100: the time at which [total_packets_at_file_done]
    packets have been sent. *)
Definition time_when_done (total_packets_at_file_done : Z)
    (total_packet_size_bits total_link_rate_bps starting_time_seconds : Qc)
  : result Qc :=
  t ← truediv (float total_packets_at_file_done * total_packet_size_bits)%Qc
        total_link_rate_bps;
  Ok (t + starting_time_seconds)%Qc.

(** Lines 83-103: the body of the loop, for one [index].  The list
    [total_packets_at_each_file_done] is read and never written by the
    loop, so that only [times_at_each_packet_done_seconds] is threaded. *)
Definition loop_body (file_order_indices_by_needed_packets_asc : list item)
    (total_packets_at_each_file_done : list Z) (sharing_computers_count : Z)
    (total_packet_size_bits total_link_rate_bps starting_time_seconds : Qc)
    (index : nat) (times_at_each_packet_done_seconds : list (Qc * nat))
  : result (list (Qc * nat)) :=
  size_and_order ← getitem file_order_indices_by_needed_packets_asc index;
  let total_packets_needed_this_file := size_and_order.1 in
  let turn_order := size_and_order.2 in
  total_packets_at_previous_done ← getitem total_packets_at_each_file_done (index - 1);
  (* total packets this file will wait for *)
  let remaining_packets_this_file_at_previous_done :=
    total_packets_needed_this_file - total_packets_at_previous_done in
  let total_packets_to_finish_this_file_at_previous_done :=
    remaining_packets_this_file_at_previous_done
    * (sharing_computers_count - Z.of_nat index) in
  let total_packets_at_file_done :=
    total_packets_to_finish_this_file_at_previous_done + total_packets_at_previous_done in
  (* total time for this file to finish *)
  time_when_file_done_seconds ←
    time_when_done total_packets_at_file_done
      total_packet_size_bits total_link_rate_bps starting_time_seconds;
  Ok (times_at_each_packet_done_seconds ++ [(time_when_file_done_seconds, turn_order)]).

(** [calculate_transmission_time_statistical_multiplexing(known_data)]: the
    list of [(time in seconds, turn order)]. *)
Definition calculate_transmission_time_statistical_multiplexing (kd : known_data)
  : result (list (Qc * nat)) :=
  (* unpack known data *)
  let total_link_rate_bps := (total_link_rate_Mbps kd * float 1000 * float 1000)%Qc in
  let sharing_computers_count := sharing_computers_count kd in
  let starting_time_seconds := starting_time_seconds kd in
  let file_sizes_bytes := file_sizes_bytes kd in
  let packet_payload_size_bytes := packet_payload_size_bytes kd in
  let packet_header_size_bytes := packet_header_size_bytes kd in
  needed_packets ← needed_packets_of file_sizes_bytes packet_payload_size_bytes;
  let total_packet_size_bits :=
    ((packet_header_size_bytes + packet_payload_size_bytes) * float 8)%Qc in
  file_order_indices_by_needed_packets_asc ← file_order_indices_of needed_packets;
  (* the first one, separately *)
  first ← getitem file_order_indices_by_needed_packets_asc 0;
  let packet_count := first.1 in
  let turn_order := first.2 in
  let total_packets_at_file_done := packet_count * sharing_computers_count in
  let total_packets_at_each_file_done := [total_packets_at_file_done] in
  time_when_file_done_seconds ←
    time_when_done total_packets_at_file_done
      total_packet_size_bits total_link_rate_bps starting_time_seconds;
  let times_at_each_packet_done_seconds := [(time_when_file_done_seconds, turn_order)] in
  for_each
    (loop_body file_order_indices_by_needed_packets_asc total_packets_at_each_file_done
       sharing_computers_count total_packet_size_bits total_link_rate_bps
       starting_time_seconds)
    (range 1 (length file_order_indices_by_needed_packets_asc))
    times_at_each_packet_done_seconds.

(** The data of the [__main__] block. *)
Definition main_known_data : known_data :=
  {| total_link_rate_Mbps := Q2Qc 5.2;
     sharing_computers_count := 2;
     starting_time_seconds := float 0;
     file_sizes_bytes := [mibs_to_bytes (float 3); kibs_to_bytes (float 165)];
     packet_payload_size_bytes := float 1000;
     packet_header_size_bytes := float 24 |}.

End TransmissionTimeStatisticalMultiplexingCalculator.

(** ** The binary64 reading *)

Module Binary64.

(** The values of Python's [float]: IEEE 754 binary64. *)
Abbreviation binary64 := PrimFloat.float.

(** A value documented as "int or float". *)
Inductive number : Type :=
| Int (n : Z)
| Float (x : binary64).

(** The [int] [n] as the binary fraction [n * 2^0], not rounded. *)
Definition spec_float_of_int (n : Z) : spec_float :=
  match n with
  | Z0 => S754_zero false
  | Zpos m => S754_finite false m 0
  | Zneg m => S754_finite true m 0
  end.

(** [float(n)] for an [int] [n], which is also the conversion of an [int]
    operand in mixed arithmetic: the nearest binary64, ties to even, and
    [OverflowError] when that is beyond the largest finite binary64. *)
Definition float_of_int (n : Z) : result binary64 :=
  let x := SF2Prim (binary_normalize prec emax n 0 false) in
  if is_infinity x then Raise OverflowError else Ok x.

(** [float(x)] *)
Definition float (x : number) : result binary64 :=
  match x with
  | Int n => float_of_int n
  | Float x => Ok x
  end.

(** [x / y] on two floats: [ZeroDivisionError] for a zero divisor of
    either sign, and otherwise the IEEE quotient, which may be infinite or
    not a number. *)
Definition truediv (x y : binary64) : result binary64 :=
  if (y =? 0)%float then Raise ZeroDivisionError else Ok (x / y)%float.

(** [a / b] on two ints: [ZeroDivisionError] for [b = 0], and otherwise
    the quotient of the two integers rounded once to binary64,
    [OverflowError] when it is beyond the largest finite binary64. *)
Definition int_truediv (a b : Z) : result binary64 :=
  if decide (b = 0) then Raise ZeroDivisionError
  else
    let q := SF2Prim (SFdiv prec emax (spec_float_of_int a) (spec_float_of_int b)) in
    if is_infinity q then Raise OverflowError else Ok q.

(** [x / y] on two numbers: an [int] operand beside a [float] one is
    converted first. *)
Definition number_truediv (x y : number) : result binary64 :=
  match x, y with
  | Int a, Int b => int_truediv a b
  | _, _ => x ← float x; y ← float y; truediv x y
  end.

(** [x * y] and [x + y] on two numbers: exact on two ints, and otherwise
    the IEEE operation on the converted operands. *)
Definition number_mul (x y : number) : result number :=
  match x, y with
  | Int a, Int b => Ok (Int (a * b))
  | _, _ => x ← float x; y ← float y; Ok (Float (x * y)%float)
  end.

Definition number_add (x y : number) : result number :=
  match x, y with
  | Int a, Int b => Ok (Int (a + b))
  | _, _ => x ← float x; y ← float y; Ok (Float (x + y)%float)
  end.

(** [x * y] and [x + y] for a float [x]: an [int] [y] is converted
    first. *)
Definition float_mul (x : binary64) (y : number) : result binary64 :=
  y ← float y; Ok (x * y)%float.

Definition float_add (x : binary64) (y : number) : result binary64 :=
  y ← float y; Ok (x + y)%float.

(** [math.ceil(x)] for a float [x]: an [int]; [OverflowError] for an
    infinity and [ValueError] for a nan. *)
Definition ceil (x : binary64) : result Z :=
  match Prim2SF x with
  | S754_nan => Raise ValueError
  | S754_infinity _ => Raise OverflowError
  | S754_zero _ => Ok 0
  | S754_finite s m e =>
      let n := if s then Z.neg m else Z.pos m in
      if 0 <=? e then Ok (n * 2 ^ e) else Ok (- ((- n) / 2 ^ (- e)))
  end.

(** *** NetworkUtilizationCalculator.py *)

Module NetworkUtilizationCalculator.

(** [calculate_transmission_time(length_in_bytes: int, rate_in_Mbps: float)] *)
Definition calculate_transmission_time (length_in_bytes : Z) (rate_in_Mbps : number)
  : result binary64 :=
  let packet_length := length_in_bytes in
  rate ← float rate_in_Mbps;
  (* convert all applicable values to bits *)
  let packet_length := packet_length * 8 in
  rate ← float_mul rate (Int (1000 * 1000));
  (* transmission time in seconds *)
  bits ← float (Int packet_length);
  transmission_time ← truediv bits rate;
  (* convert transmission time to milliseconds *)
  transmission_time ← float_mul transmission_time (Int 1000);
  Ok transmission_time.

(** The dictionary [known_data], with its three keys. *)
Record known_data : Type := Known_data {
  length_in_bytes : Z;
  rate_in_Mbps : number;
  rtt_in_ms : number
}.

(** [calculate_network_utilization(known_data, window_size=None)] *)
Definition calculate_network_utilization (kd : known_data) (window_size : option Z)
  : result binary64 :=
  let packet_length := length_in_bytes kd in
  let rate := rate_in_Mbps kd in
  rtt ← float (rtt_in_ms kd);
  transmission_time ← calculate_transmission_time packet_length rate;
  let total_time := (transmission_time + rtt)%float in
  utilization ← truediv transmission_time total_time;
  pipelined_packet_count ←
    match window_size with
    | None => Ok (Int 1)
    | Some window_size => c ← int_truediv window_size packet_length; Ok (Float c)
    end;
  utilization ← float_mul utilization pipelined_packet_count;
  Ok utilization.

(** The data of [main]. *)
Definition main_known_data : known_data :=
  {| length_in_bytes := 1000; rate_in_Mbps := Int 1000; rtt_in_ms := Int (15 * 2) |}.

End NetworkUtilizationCalculator.

(** *** TransmissionTimeStatisticalMultiplexingCalculator.py *)

Module TransmissionTimeStatisticalMultiplexingCalculator.

Import heapq.

(** [kibs_to_bytes(kibs)] *)
Definition kibs_to_bytes (kibs : number) : result number := number_mul kibs (Int 1024).

(** [mibs_to_bytes(mibs)] *)
Definition mibs_to_bytes (mibs : number) : result number :=
  kibs ← number_mul mibs (Int 1024); number_mul kibs (Int 1024).

(** The dictionary [known_data], with its six keys. *)
Record known_data : Type := Known_data {
  total_link_rate_Mbps : number;
  sharing_computers_count : Z;
  starting_time_seconds : number;
  file_sizes_bytes : list number;
  packet_payload_size_bytes : number;
  packet_header_size_bytes : number
}.

(** Line 57,
    [[ceil(size_in_bytes / packet_payload_size_bytes) for size_in_bytes in file_sizes_bytes]]. *)
Definition needed_packets_of (file_sizes_bytes : list number)
    (packet_payload_size_bytes : number) : result (list Z) :=
  comprehension
    (fun size_in_bytes => q ← number_truediv size_in_bytes packet_payload_size_bytes; ceil q)
    file_sizes_bytes.

(** Lines 75-80 and 95-100,
    [total_packets_at_file_done * total_packet_size_bits / total_link_rate_bps
     + starting_time_seconds]. *)
Definition time_when_done (total_packets_at_file_done : Z)
    (total_packet_size_bits total_link_rate_bps starting_time_seconds : number)
  : result binary64 :=
  bits ← number_mul (Int total_packets_at_file_done) total_packet_size_bits;
  seconds ← number_truediv bits total_link_rate_bps;
  float_add seconds starting_time_seconds.

(** Lines 83-103: the body of the loop, for one [index]. *)
Definition loop_body (file_order_indices_by_needed_packets_asc : list item)
    (total_packets_at_each_file_done : list Z) (sharing_computers_count : Z)
    (total_packet_size_bits total_link_rate_bps starting_time_seconds : number)
    (index : nat) (times_at_each_packet_done_seconds : list (binary64 * nat))
  : result (list (binary64 * nat)) :=
  size_and_order ← getitem file_order_indices_by_needed_packets_asc index;
  let total_packets_needed_this_file := size_and_order.1 in
  let turn_order := size_and_order.2 in
  total_packets_at_previous_done ← getitem total_packets_at_each_file_done (index - 1);
  (* total packets this file will wait for *)
  let remaining_packets_this_file_at_previous_done :=
    total_packets_needed_this_file - total_packets_at_previous_done in
  let total_packets_to_finish_this_file_at_previous_done :=
    remaining_packets_this_file_at_previous_done
    * (sharing_computers_count - Z.of_nat index) in
  let total_packets_at_file_done :=
    total_packets_to_finish_this_file_at_previous_done + total_packets_at_previous_done in
  (* total time for this file to finish *)
  time_when_file_done_seconds ←
    time_when_done total_packets_at_file_done
      total_packet_size_bits total_link_rate_bps starting_time_seconds;
  Ok (times_at_each_packet_done_seconds ++ [(time_when_file_done_seconds, turn_order)]).

(** [calculate_transmission_time_statistical_multiplexing(known_data)] *)
Definition calculate_transmission_time_statistical_multiplexing (kd : known_data)
  : result (list (binary64 * nat)) :=
  (* unpack known data *)
  total_link_rate_Kbps ← number_mul (total_link_rate_Mbps kd) (Int 1000);
  total_link_rate_bps ← number_mul total_link_rate_Kbps (Int 1000);
  let sharing_computers_count := sharing_computers_count kd in
  let starting_time_seconds := starting_time_seconds kd in
  let file_sizes_bytes := file_sizes_bytes kd in
  let packet_payload_size_bytes := packet_payload_size_bytes kd in
  let packet_header_size_bytes := packet_header_size_bytes kd in
  needed_packets ← needed_packets_of file_sizes_bytes packet_payload_size_bytes;
  total_packet_size_bytes ← number_add packet_header_size_bytes packet_payload_size_bytes;
  total_packet_size_bits ← number_mul total_packet_size_bytes (Int 8);
  file_order_indices_by_needed_packets_asc ←
    TransmissionTimeStatisticalMultiplexingCalculator.file_order_indices_of needed_packets;
  (* the first one, separately *)
  first ← getitem file_order_indices_by_needed_packets_asc 0;
  let packet_count := first.1 in
  let turn_order := first.2 in
  let total_packets_at_file_done := packet_count * sharing_computers_count in
  let total_packets_at_each_file_done := [total_packets_at_file_done] in
  time_when_file_done_seconds ←
    time_when_done total_packets_at_file_done
      total_packet_size_bits total_link_rate_bps starting_time_seconds;
  let times_at_each_packet_done_seconds := [(time_when_file_done_seconds, turn_order)] in
  for_each
    (loop_body file_order_indices_by_needed_packets_asc total_packets_at_each_file_done
       sharing_computers_count total_packet_size_bits total_link_rate_bps
       starting_time_seconds)
    (range 1 (length file_order_indices_by_needed_packets_asc))
    times_at_each_packet_done_seconds.

(** The data of the [__main__] block; the two file sizes are
    [mibs_to_bytes(3)] and [kibs_to_bytes(165)]. *)
Definition main_known_data : known_data :=
  {| total_link_rate_Mbps := Float 5.2;
     sharing_computers_count := 2;
     starting_time_seconds := Int 0;
     file_sizes_bytes := [Int (3 * 1024 * 1024); Int (165 * 1024)];
     packet_payload_size_bytes := Int 1000;
     packet_header_size_bytes := Int 24 |}.

End TransmissionTimeStatisticalMultiplexingCalculator.

End Binary64.

(** ** The scheduling algorithm in the words of the specification *)

Module Spec.

Import TransmissionTimeStatisticalMultiplexingCalculator.

(** A job: the needed packet count of a sender and its turn order. *)
Abbreviation job := (Z * nat)%type.

(** "ascending by [needed_packets], tie-broken by ascending turn order" *)
Definition job_le (a b : job) : Prop :=
  a.1 < b.1 \/ (a.1 = b.1 /\ (a.2 <= b.2)%nat).

#[global] Instance job_le_dec : RelDecision job_le.
Proof. intros a b. unfold job_le. apply _. Defined.

(** One job per sender, in turn order. *)
Definition jobs (needed_packets : list Z) : list job :=
  imap (fun turn_order packet_count => (packet_count, turn_order)) needed_packets.

(** Step 3: the processing sequence. *)
Definition processing_order (needed_packets : list Z) : list job :=
  merge_sort job_le (jobs needed_packets).

(** Steps 4 and 5: the total number of packets sent when the job at the
    sorted position [k] finishes.  For the first job it is
    [needed_packets * sharing_computers_count]; for a later one, with
    [prev_total] the total when the job before it finished, it is
    [(needed_packets - prev_total) * (sharing_computers_count - k) + prev_total]. *)
Fixpoint total_packets_at_done (sharing_computers_count : Z) (order : list job) (k : nat)
  : Z :=
  let needed_packets := (order !!! k).1 in
  match k with
  | O => needed_packets * sharing_computers_count
  | S k' =>
      let prev_total := total_packets_at_done sharing_computers_count order k' in
      let remaining := needed_packets - prev_total in
      remaining * (sharing_computers_count - Z.of_nat k) + prev_total
  end.

(** Step 4: [total_packets_at_done * packet_size_bits / total_link_rate_bps
    + starting_time_seconds], with [packet_size_bits] of step 2 and the rate
    in bits per second, [rate_Mbps * 1_000_000]. *)
Definition completion_time (kd : known_data) (total_packets_at_done : Z) : Qc :=
  (float total_packets_at_done
   * ((packet_header_size_bytes kd + packet_payload_size_bytes kd) * float 8)
   / (total_link_rate_Mbps kd * float 1000000)
   + starting_time_seconds kd)%Qc.

(** Step 1. *)
Definition needed_packets (kd : known_data) : list Z :=
  map (fun size => Qceiling (size / packet_payload_size_bytes kd)%Qc) (file_sizes_bytes kd).

(** Step 6: the output, in processing order. *)
Definition schedule (kd : known_data) : list (Qc * nat) :=
  let order := processing_order (needed_packets kd) in
  imap
    (fun k (j : job) =>
       (completion_time kd (total_packets_at_done (sharing_computers_count kd) order k), j.2))
    order.

End Spec.

(** ** Expressions and inputs named in the statements *)

Section UtilizationInputs.

Import NetworkUtilizationCalculator.


End UtilizationInputs.

Section SchedulerInputs.

Import heapq TransmissionTimeStatisticalMultiplexingCalculator.

(** The time at which [total] packets have been sent, for the data [kd]. *)
Definition time_when_file_done_seconds (kd : known_data) (total : Z) : Qc :=
  (float total
   * ((packet_header_size_bytes kd + packet_payload_size_bytes kd) * float 8)
   / (total_link_rate_Mbps kd * float 1000 * float 1000)
   + starting_time_seconds kd)%Qc.

(** The packet count of a file of [s] bytes. *)
Definition packets (kd : known_data) (s : Qc) : Z :=
  ceil (s / packet_payload_size_bytes kd)%Qc.

(** The two entries of the list for two files, in the order of the list. *)
Definition first_of_two (p0 p1 : Z) : item :=
  if item_lt (p1, 1%nat) (p0, 0%nat) then (p1, 1%nat) else (p0, 0%nat).
Definition second_of_two (p0 p1 : Z) : item :=
  if item_lt (p1, 1%nat) (p0, 0%nat) then (p0, 0%nat) else (p1, 1%nat).

(** The output for the data of the [__main__] block. *)
Definition main_output : list (Qc * nat) :=
  [(Q2Qc (1664 # 3125), 1%nat); (Q2Qc (15488 # 3125), 0%nat)].

(** Two files of 1500 and 1200 bytes: both need two packets of 1000
    bytes. *)
Definition equal_counts_data : known_data :=
  {| total_link_rate_Mbps := Q2Qc 5.2;
     sharing_computers_count := 2;
     starting_time_seconds := float 0;
     file_sizes_bytes := [float 1500; float 1200];
     packet_payload_size_bytes := float 1000;
     packet_header_size_bytes := float 24 |}.

Definition equal_counts_output : list (Qc * nat) :=
  [(Q2Qc (256 # 40625), 0%nat); (Q2Qc (128 # 40625), 1%nat)].

(** Two senders with files of 2000 and 3000 bytes, the other data as in
    the [__main__] block: 2 and 3 packets of 1000 bytes. *)
Definition two_and_three_packets_data : known_data :=
  {| total_link_rate_Mbps := Q2Qc 5.2;
     sharing_computers_count := 2;
     starting_time_seconds := float 0;
     file_sizes_bytes := [float 2000; float 3000];
     packet_payload_size_bytes := float 1000;
     packet_header_size_bytes := float 24 |}.

(** Three senders with files of one, two and three packets. *)
Definition three_files_data : known_data :=
  {| total_link_rate_Mbps := Q2Qc 5.2;
     sharing_computers_count := 3;
     starting_time_seconds := float 0;
     file_sizes_bytes := [float 1000; float 2000; float 3000];
     packet_payload_size_bytes := float 1000;
     packet_header_size_bytes := float 24 |}.

(** Three senders with files of three, two and one packets: the largest
    file first. *)
Definition descending_files_data : known_data :=
  {| total_link_rate_Mbps := Q2Qc 5.2;
     sharing_computers_count := 3;
     starting_time_seconds := float 0;
     file_sizes_bytes := [float 3000; float 2000; float 1000];
     packet_payload_size_bytes := float 1000;
     packet_header_size_bytes := float 24 |}.

(** Three senders with files of two, two and one packets. *)
Definition tied_files_data : known_data :=
  {| total_link_rate_Mbps := Q2Qc 5.2;
     sharing_computers_count := 3;
     starting_time_seconds := float 0;
     file_sizes_bytes := [float 2000; float 2000; float 1000];
     packet_payload_size_bytes := float 1000;
     packet_header_size_bytes := float 24 |}.

(** Line 60 and line 49, for the data [kd]. *)
Definition total_packet_size_bits (kd : known_data) : Qc :=
  ((packet_header_size_bytes kd + packet_payload_size_bytes kd) * float 8)%Qc.
Definition total_link_rate_bps (kd : known_data) : Qc :=
  (total_link_rate_Mbps kd * float 1000 * float 1000)%Qc.

(** Lines 83-103 at one [index], for the data [kd], the list [heap] of
    lines 63-65 and the one-element list of line 74. *)
Definition loop_body_at (kd : known_data) (heap : list item) (first_total : Z)
    (index : nat) (times : list (Qc * nat)) : result (list (Qc * nat)) :=
  loop_body heap [first_total] (sharing_computers_count kd)
    (total_packet_size_bits kd) (total_link_rate_bps kd) (starting_time_seconds kd)
    index times.

End SchedulerInputs.

Section Binary64Inputs.

Import Binary64.


(** A rate of [1e305] Mbps and a round-trip time of zero. *)
Definition infinite_rate_data : NetworkUtilizationCalculator.known_data :=
  {| NetworkUtilizationCalculator.length_in_bytes := 1000;
     NetworkUtilizationCalculator.rate_in_Mbps := Float 1e305;
     NetworkUtilizationCalculator.rtt_in_ms := Int 0 |}.

(** The data of the [__main__] block with other files. *)
Definition with_files (sharing_computers_count : Z) (file_sizes_bytes : list number)
  : TransmissionTimeStatisticalMultiplexingCalculator.known_data :=
  {| TransmissionTimeStatisticalMultiplexingCalculator.total_link_rate_Mbps := Float 5.2;
     TransmissionTimeStatisticalMultiplexingCalculator.sharing_computers_count :=
       sharing_computers_count;
     TransmissionTimeStatisticalMultiplexingCalculator.starting_time_seconds := Int 0;
     TransmissionTimeStatisticalMultiplexingCalculator.file_sizes_bytes := file_sizes_bytes;
     TransmissionTimeStatisticalMultiplexingCalculator.packet_payload_size_bytes := Int 1000;
     TransmissionTimeStatisticalMultiplexingCalculator.packet_header_size_bytes := Int 24 |}.

End Binary64Inputs.

(** ** Notions of the further properties *)

Section FurtherNotions.

Import heapq TransmissionTimeStatisticalMultiplexingCalculator.

(** The invariant of [heapq]: no entry is smaller than its parent, the
    parent of the place [k] being the place [(k - 1) >> 1]. *)
Definition heap_ordered (heap : list item) : Prop :=
  forall (k : nat) (child parent : item),
    (0 < k)%nat -> heap !! k = Some child -> heap !! Nat.shiftr (k - 1) 1 = Some parent ->
    item_lt child parent = false.

End FurtherNotions.

(** * Properties *)

(** Closed equations between rationals are decided on their canonical
    forms. *)
Ltac qc_decide := apply Qc_is_canon; vm_compute; reflexivity.

(** A closed call is evaluated, and its rational results are compared on
    their canonical forms. *)
Ltac qc_eval :=
  vm_compute;
  repeat first [reflexivity | apply Qc_is_canon; reflexivity | f_equal].

(** A statement that returned lets the next one run. *)
Ltac next_statement := change (Ok ?x ≫= ?k) with (k x); cbv beta.

(** ** Arithmetic helpers *)

Lemma Qc_of_Z_eq_0 (n : Z) : Qc_of_Z n = 0%Qc <-> n = 0.
Proof.
  split; [|intros ->; apply Z2Qc_inj_0].
  intros H. apply (f_equal (fun q : Qc => Qnum q)) in H. exact H.
Qed.

Lemma float_neq_0 (n : Z) : n <> 0 -> float n <> 0%Qc.
Proof. unfold float. rewrite Qc_of_Z_eq_0. trivial. Qed.

Lemma truediv_Ok (x y : Qc) : y <> 0%Qc -> truediv x y = Ok (x / y)%Qc.
Proof. intros H. unfold truediv. destruct (decide (y = 0%Qc)); [contradiction | reflexivity]. Qed.

Lemma truediv_Raise (x : Qc) : truediv x 0%Qc = Raise ZeroDivisionError.
Proof. unfold truediv. destruct (decide (0%Qc = 0%Qc)); [reflexivity | contradiction]. Qed.

Section NetworkUtilization.

Import NetworkUtilizationCalculator.

Lemma calculate_network_utilization_Some (kd : known_data) (w : Z) (u : Qc) :
  calculate_network_utilization kd None = Ok u ->
  length_in_bytes kd <> 0 ->
  calculate_network_utilization kd (Some w)
  = Ok (u * (float w / float (length_in_bytes kd)))%Qc.
Proof.
  intros Hu Hl. revert Hu. unfold calculate_network_utilization.
  destruct (calculate_transmission_time _ _) as [tt|e]; [|discriminate].
  cbn. destruct (truediv tt _) as [q|e]; [|discriminate].
  cbn. intros [= <-]. rewrite (truediv_Ok _ _ (float_neq_0 _ Hl)). cbn.
  f_equal. unfold float. rewrite Z2Qc_inj_1. ring.
Qed.


End NetworkUtilization.

(** ** The heap of [heapq] *)

Section Heap.

Import heapq.

Lemma getitem_Ok {A : Type} (l : list A) (i : nat) (x : A) :
  getitem l i = Ok x <-> l !! i = Some x.
Proof. unfold getitem. destruct (l !! i); split; congruence. Qed.

(** The loop keeps the length of the list and ends at a place that is not
    after the one it started from; within the list it does not raise. *)
Lemma _siftdown_loop_Ok (heap : list item) (newitem : item) (startpos pos : nat) :
  (pos < length heap)%nat ->
  exists heap' pos',
    _siftdown_loop heap newitem startpos pos = Ok (heap', pos')
    /\ length heap' = length heap /\ (pos' <= pos)%nat.
Proof.
  funelim (_siftdown_loop heap newitem startpos pos); intros Hpos.
  - assert (Hp : (Nat.shiftr (pos - 1) 1 < pos)%nat).
    { change (Nat.div2 (pos - 1) < pos)%nat.
      pose proof (Nat.div2_decr (pos - 1) (pos - 1)). lia. }
    destruct (lookup_lt_is_Some_2 heap (Nat.shiftr (pos - 1) 1)) as [parent Hparent];
      [lia|].
    rewrite (proj2 (getitem_Ok heap _ parent) Hparent). cbn -[Nat.shiftr].
    destruct (item_lt newitem parent) eqn:Hlt.
    + destruct (H parent) as (heap' & pos' & -> & Hlen & Hle).
      { rewrite length_insert. lia. }
      exists heap', pos'. rewrite Hlen, length_insert. repeat split; trivial. lia.
    + exists heap, pos. repeat split; trivial.
  - exists heap, pos. repeat split; trivial.
Qed.

(** [heappush] never raises, and the list grows by one. *)
Lemma heappush_Ok (heap : list item) (x : item) :
  exists heap', heappush heap x = Ok heap' /\ length heap' = S (length heap).
Proof.
  unfold heappush, _siftdown.
  assert (Hlen : (length (heap ++ [x]) - 1)%nat = length heap).
  { rewrite length_app. simpl. lia. }
  rewrite Hlen.
  assert (Hx : getitem (heap ++ [x]) (length heap) = Ok x).
  { apply getitem_Ok. apply list_lookup_middle. reflexivity. }
  rewrite Hx. cbn.
  destruct (_siftdown_loop_Ok (heap ++ [x]) x 0 (length heap))
    as (heap' & pos' & -> & Hlen' & Hle).
  { rewrite length_app. simpl. lia. }
  cbn. eexists. split; [reflexivity|].
  rewrite length_insert, Hlen', length_app. simpl. lia.
Qed.

Lemma heappush_nil (x : item) : heappush [] x = Ok [x].
Proof. reflexivity. Qed.

(** The two ways through the loop. *)
Lemma _siftdown_loop_stop (heap : list item) (newitem : item) (startpos pos : nat) :
  (pos <= startpos)%nat -> _siftdown_loop heap newitem startpos pos = Ok (heap, pos).
Proof.
  intros H. simp _siftdown_loop.
  destruct (decide (startpos < pos)%nat); [lia | reflexivity].
Qed.

Lemma _siftdown_loop_step (heap : list item) (newitem : item) (startpos pos : nat) :
  (startpos < pos)%nat ->
  _siftdown_loop heap newitem startpos pos
  = (parent ← getitem heap (Nat.shiftr (pos - 1) 1);
     if item_lt newitem parent
     then _siftdown_loop (<[pos := parent]> heap) newitem startpos (Nat.shiftr (pos - 1) 1)
     else Ok (heap, pos)).
Proof.
  intros H. simp _siftdown_loop.
  destruct (decide (startpos < pos)%nat); [reflexivity | lia].
Qed.

Lemma heappush_singleton (a x : item) :
  heappush [a] x = Ok (if item_lt x a then [x; a] else [a; x]).
Proof.
  unfold heappush, _siftdown, getitem. cbn.
  rewrite _siftdown_loop_step by lia. unfold getitem. cbn.
  destruct (item_lt x a); [rewrite _siftdown_loop_stop by lia|]; reflexivity.
Qed.

(** The loop and the final assignment permute the list. *)
Lemma _siftdown_loop_Permutation (heap : list item) (newitem : item) (startpos pos : nat)
    (heap' : list item) (pos' : nat) :
  (pos < length heap)%nat ->
  _siftdown_loop heap newitem startpos pos = Ok (heap', pos') ->
  <[pos' := newitem]> heap' ≡ₚ <[pos := newitem]> heap.
Proof.
  funelim (_siftdown_loop heap newitem startpos pos); intros Hpos Hloop.
  - assert (Hp : (Nat.shiftr (pos - 1) 1 < pos)%nat).
    { change (Nat.div2 (pos - 1) < pos)%nat.
      pose proof (Nat.div2_decr (pos - 1) (pos - 1)). lia. }
    destruct (lookup_lt_is_Some_2 heap (Nat.shiftr (pos - 1) 1)) as [parent Hparent];
      [lia|].
    rewrite (proj2 (getitem_Ok heap _ parent) Hparent) in Hloop.
    cbn -[Nat.shiftr] in Hloop.
    destruct (item_lt newitem parent).
    + rewrite (H parent heap' pos'); [| rewrite length_insert; lia | exact Hloop].
      rewrite <- (list_insert_insert_eq heap pos parent newitem).
      apply Permutation_insert_swap.
      * apply list_lookup_insert_eq. exact Hpos.
      * rewrite list_lookup_insert_ne by lia. exact Hparent.
    + injection Hloop as <- <-. reflexivity.
  - injection Hloop as <- <-. reflexivity.
Qed.

(** [heappush] adds the item and loses none. *)
Lemma heappush_Permutation (heap heap' : list item) (x : item) :
  heappush heap x = Ok heap' -> heap' ≡ₚ x :: heap.
Proof.
  unfold heappush, _siftdown.
  assert (Hlen : (length (heap ++ [x]) - 1)%nat = length heap).
  { rewrite length_app. simpl. lia. }
  rewrite Hlen.
  assert (Hx : (heap ++ [x]) !! length heap = Some x).
  { apply list_lookup_middle. reflexivity. }
  rewrite (proj2 (getitem_Ok _ _ _) Hx). cbn.
  destruct (_siftdown_loop (heap ++ [x]) x 0 (length heap)) as [[heap1 pos1]|e] eqn:Hloop;
    [|discriminate].
  cbn. intros [= <-].
  assert (Hpos : (length heap < length (heap ++ [x]))%nat).
  { rewrite length_app. simpl. lia. }
  rewrite (_siftdown_loop_Permutation _ _ _ _ _ _ Hpos Hloop).
  rewrite (list_insert_id _ _ _ Hx). symmetry. apply Permutation_cons_append.
Qed.

End Heap.

(** ** The scheduler, step by step *)

Section Scheduler.

Import heapq TransmissionTimeStatisticalMultiplexingCalculator.

Lemma for_each_heappush_Ok (l : list Z) (k : nat) (heap : list item) :
  exists heap',
    for_each (fun '(turn_order, packet_count) heap => heappush heap (packet_count, turn_order))
      (zip (seq k (length l)) l) heap = Ok heap'
    /\ length heap' = (length heap + length l)%nat.
Proof.
  revert k heap. induction l as [|p l IH]; intros k heap.
  - exists heap. split; [reflexivity | simpl; lia].
  - simpl. destruct (heappush_Ok heap (p, k)) as (heap1 & -> & Hlen1). cbn.
    destruct (IH (S k) heap1) as (heap' & -> & Hlen').
    exists heap'. split; [reflexivity | lia].
Qed.

(** Building the list never raises, and there is one entry per file. *)
Lemma file_order_indices_of_Ok (needed_packets : list Z) :
  exists heap,
    file_order_indices_of needed_packets = Ok heap
    /\ length heap = length needed_packets.
Proof.
  destruct (for_each_heappush_Ok needed_packets 0 []) as (heap & H & Hlen).
  exists heap. split; [exact H | exact Hlen].
Qed.

Lemma file_order_indices_of_one (p0 : Z) :
  file_order_indices_of [p0] = Ok [(p0, 0%nat)].
Proof. reflexivity. Qed.

Lemma file_order_indices_of_two (p0 p1 : Z) :
  file_order_indices_of [p0; p1]
  = Ok (if item_lt (p1, 1%nat) (p0, 0%nat)
        then [(p1, 1%nat); (p0, 0%nat)]
        else [(p0, 0%nat); (p1, 1%nat)]).
Proof.
  unfold file_order_indices_of, enumerate. simpl.
  rewrite heappush_nil. cbn -[heappush]. rewrite heappush_singleton. cbn.
  destruct (item_lt _ _); reflexivity.
Qed.

(** The packet counts: one true division and one [ceil] per file. *)
Lemma needed_packets_of_Ok (sizes : list Qc) (payload : Qc) :
  payload <> 0%Qc ->
  needed_packets_of sizes payload = Ok (map (fun s => ceil (s / payload)%Qc) sizes).
Proof.
  intros Hp. unfold needed_packets_of.
  induction sizes as [|s sizes IH]; [reflexivity|].
  simpl. rewrite (truediv_Ok _ _ Hp). cbn. rewrite IH. reflexivity.
Qed.

Lemma needed_packets_of_Raise (s : Qc) (sizes : list Qc) :
  needed_packets_of (s :: sizes) 0%Qc = Raise ZeroDivisionError.
Proof.
  unfold needed_packets_of. cbn [comprehension]. rewrite truediv_Raise. reflexivity.
Qed.

Lemma link_rate_bps_neq_0 (r : Qc) :
  r <> 0%Qc <-> (r * float 1000 * float 1000)%Qc <> 0%Qc.
Proof.
  assert (H1000 : float 1000 <> 0%Qc) by (apply float_neq_0; lia).
  split.
  - intros Hr H. apply Qcmult_integral in H as [H|H]; [|contradiction].
    apply Qcmult_integral in H as [H|H]; contradiction.
  - intros H ->. apply H. rewrite !Qcmult_0_l. reflexivity.
Qed.

Lemma time_when_done_Ok (kd : known_data) (total : Z) :
  total_link_rate_Mbps kd <> 0%Qc ->
  time_when_done total
    ((packet_header_size_bytes kd + packet_payload_size_bytes kd) * float 8)%Qc
    (total_link_rate_Mbps kd * float 1000 * float 1000)%Qc
    (starting_time_seconds kd)
  = Ok (time_when_file_done_seconds kd total).
Proof.
  intros Hr. unfold time_when_done.
  rewrite truediv_Ok by (apply (proj1 (link_rate_bps_neq_0 _)), Hr). reflexivity.
Qed.

Lemma time_when_done_Raise (kd : known_data) (total : Z) :
  total_link_rate_Mbps kd = 0%Qc ->
  time_when_done total
    ((packet_header_size_bytes kd + packet_payload_size_bytes kd) * float 8)%Qc
    (total_link_rate_Mbps kd * float 1000 * float 1000)%Qc
    (starting_time_seconds kd)
  = Raise ZeroDivisionError.
Proof.
  intros ->. unfold time_when_done. rewrite !Qcmult_0_l, truediv_Raise. reflexivity.
Qed.

(** *** No file: the first subscript fails *)
Lemma scheduler_no_file (kd : known_data) :
  file_sizes_bytes kd = [] ->
  calculate_transmission_time_statistical_multiplexing kd = Raise IndexError.
Proof.
  intros Hf. unfold calculate_transmission_time_statistical_multiplexing.
  rewrite Hf. reflexivity.
Qed.

(** *** A payload size of zero: the first division fails *)
Lemma scheduler_zero_payload (kd : known_data) :
  file_sizes_bytes kd <> [] -> packet_payload_size_bytes kd = 0%Qc ->
  calculate_transmission_time_statistical_multiplexing kd = Raise ZeroDivisionError.
Proof.
  intros Hf Hp. unfold calculate_transmission_time_statistical_multiplexing.
  destruct (file_sizes_bytes kd) as [|s sizes]; [contradiction|].
  rewrite Hp, needed_packets_of_Raise. reflexivity.
Qed.

(** *** A rate of zero: the division of the first completion time fails *)
Lemma scheduler_zero_rate (kd : known_data) :
  file_sizes_bytes kd <> [] -> packet_payload_size_bytes kd <> 0%Qc ->
  total_link_rate_Mbps kd = 0%Qc ->
  calculate_transmission_time_statistical_multiplexing kd = Raise ZeroDivisionError.
Proof.
  intros Hf Hp Hr. unfold calculate_transmission_time_statistical_multiplexing.
  cbv zeta. rewrite (needed_packets_of_Ok _ _ Hp).
  change (Ok ?x ≫= ?k) with (k x). cbv beta.
  destruct (file_order_indices_of_Ok
              (map (fun s => ceil (s / packet_payload_size_bytes kd)%Qc) (file_sizes_bytes kd)))
    as (heap & -> & Hlen).
  change (Ok ?x ≫= ?k) with (k x). cbv beta.
  rewrite length_map in Hlen.
  destruct heap as [|h0 heap].
  { destruct (file_sizes_bytes kd); [contradiction | discriminate]. }
  change (getitem (h0 :: heap) 0) with (Ok h0).
  change (Ok ?x ≫= ?k) with (k x). cbv beta.
  rewrite (time_when_done_Raise kd _ Hr). reflexivity.
Qed.

(** *** One file *)
Lemma scheduler_one_file (kd : known_data) (s0 : Qc) :
  file_sizes_bytes kd = [s0] ->
  packet_payload_size_bytes kd <> 0%Qc -> total_link_rate_Mbps kd <> 0%Qc ->
  calculate_transmission_time_statistical_multiplexing kd
  = Ok [(time_when_file_done_seconds kd (packets kd s0 * sharing_computers_count kd), 0%nat)].
Proof.
  intros Hf Hp Hr. unfold calculate_transmission_time_statistical_multiplexing.
  cbv zeta. rewrite (needed_packets_of_Ok _ _ Hp), Hf. next_statement.
  cbn [map]. rewrite file_order_indices_of_one. next_statement.
  change (getitem [?h] 0) with (Ok h). next_statement.
  rewrite (time_when_done_Ok kd _ Hr). reflexivity.
Qed.

(** *** Two files *)
Lemma scheduler_two_files (kd : known_data) (s0 s1 : Qc) :
  file_sizes_bytes kd = [s0; s1] ->
  packet_payload_size_bytes kd <> 0%Qc -> total_link_rate_Mbps kd <> 0%Qc ->
  let a := first_of_two (packets kd s0) (packets kd s1) in
  let b := second_of_two (packets kd s0) (packets kd s1) in
  let total_a := a.1 * sharing_computers_count kd in
  let total_b := (b.1 - total_a) * (sharing_computers_count kd - 1) + total_a in
  calculate_transmission_time_statistical_multiplexing kd
  = Ok [(time_when_file_done_seconds kd total_a, a.2); (time_when_file_done_seconds kd total_b, b.2)].
Proof.
  intros Hf Hp Hr. unfold calculate_transmission_time_statistical_multiplexing.
  cbv zeta. rewrite (needed_packets_of_Ok _ _ Hp), Hf. next_statement.
  cbn [map]. rewrite file_order_indices_of_two. next_statement.
  unfold first_of_two, second_of_two, packets.
  destruct (item_lt _ _).
  all: change (getitem (?h :: _) 0) with (Ok h); next_statement.
  all: rewrite (time_when_done_Ok kd _ Hr); next_statement.
  all: cbn [length range seq Nat.sub for_each]; unfold loop_body.
  all: change (getitem [_; ?h] 1) with (Ok h); next_statement.
  all: change (getitem [?t] (1 - 1)) with (Ok t); next_statement.
  all: rewrite (time_when_done_Ok kd _ Hr); reflexivity.
Qed.

(** *** Three files or more: the subscript [index - 1] fails at [index = 2],
    because [total_packets_at_each_file_done] still has its one element *)
Lemma scheduler_three_files (kd : known_data) :
  (3 <= length (file_sizes_bytes kd))%nat ->
  packet_payload_size_bytes kd <> 0%Qc -> total_link_rate_Mbps kd <> 0%Qc ->
  calculate_transmission_time_statistical_multiplexing kd = Raise IndexError.
Proof.
  intros Hf Hp Hr. unfold calculate_transmission_time_statistical_multiplexing.
  cbv zeta. rewrite (needed_packets_of_Ok _ _ Hp). next_statement.
  destruct (file_order_indices_of_Ok
              (map (fun s => ceil (s / packet_payload_size_bytes kd)%Qc) (file_sizes_bytes kd)))
    as (heap & -> & Hlen).
  next_statement. rewrite length_map in Hlen.
  destruct heap as [|h0 [|h1 [|h2 heap]]]; try (simpl in Hlen; lia).
  change (getitem (?h :: _) 0) with (Ok h). next_statement.
  rewrite (time_when_done_Ok kd _ Hr). next_statement.
  cbn [length range seq Nat.sub for_each]. unfold loop_body at 1.
  change (getitem (_ :: ?h :: _) 1) with (Ok h). next_statement.
  change (getitem [?t] (1 - 1)) with (Ok t). next_statement.
  rewrite (time_when_done_Ok kd _ Hr).
  change (bind (Ok ?x ≫= ?k) ?k') with (bind (k x) k'). cbv beta.
  cbn [bind]. unfold loop_body at 1.
  change (getitem (_ :: _ :: ?h :: _) 2) with (Ok h). next_statement.
  reflexivity.
Qed.

End Scheduler.

(** ** The processing order of the specification *)

Section ProcessingOrder.

Import heapq TransmissionTimeStatisticalMultiplexingCalculator Spec.

#[local] Instance job_le_total : Total job_le.
Proof. intros [p a] [q b]. unfold job_le. simpl. lia. Qed.

#[local] Instance job_le_trans : Transitive job_le.
Proof. intros [p a] [q b] [r c]. unfold job_le. simpl. lia. Qed.

#[local] Instance job_le_antisymm : AntiSymm (=) job_le.
Proof.
  intros [p a] [q b]. unfold job_le. simpl. intros H1 H2.
  f_equal; lia.
Qed.

(** The comparison of [heapq] is the strict part of the order. *)
Lemma item_lt_job_le (a b : item) : item_lt a b = true <-> ~ job_le b a.
Proof.
  destruct a as [p a], b as [q b]. unfold item_lt, job_le. simpl.
  rewrite orb_true_iff, andb_true_iff, Z.ltb_lt, Z.eqb_eq, Nat.ltb_lt. lia.
Qed.

Lemma jobs_lookup (needed : list Z) (i : nat) (j : job) :
  jobs needed !! i = Some j <-> needed !! i = Some j.1 /\ j.2 = i.
Proof.
  unfold jobs. rewrite list_lookup_imap_Some. destruct j as [p t]. simpl. split.
  - intros (y & Hy & [= -> ->]). auto.
  - intros [H <-]. exists p. auto.
Qed.

Lemma jobs_turn_orders (needed : list Z) :
  (jobs needed).*2 = seq 0 (length needed).
Proof.
  apply list_eq. intros i. rewrite list_lookup_fmap.
  destruct (decide (i < length needed)%nat) as [Hi|Hi].
  - rewrite lookup_seq_lt by exact Hi.
    destruct (lookup_lt_is_Some_2 needed i Hi) as [p Hp].
    rewrite (proj2 (jobs_lookup needed i (p, i))) by auto. reflexivity.
  - rewrite lookup_seq_ge by lia.
    destruct (jobs needed !! i) as [j|] eqn:Hj; [|reflexivity].
    apply jobs_lookup in Hj as [Hj _]. apply lookup_lt_Some in Hj. lia.
Qed.

(** The processing order is sorted, and it holds every sender once. *)
Lemma processing_order_sorted (needed : list Z) :
  StronglySorted job_le (processing_order needed).
Proof. apply StronglySorted_merge_sort; apply _. Qed.

Lemma processing_order_Permutation (needed : list Z) :
  processing_order needed ≡ₚ jobs needed.
Proof. apply merge_sort_Permutation. Qed.

Lemma processing_order_turn_orders (needed : list Z) :
  (processing_order needed).*2 ≡ₚ seq 0 (length needed).
Proof.
  rewrite <- jobs_turn_orders. apply fmap_Permutation, processing_order_Permutation.
Qed.

Lemma processing_order_length (needed : list Z) :
  length (processing_order needed) = length needed.
Proof.
  rewrite (Permutation_length (processing_order_Permutation needed)).
  unfold jobs. apply length_imap.
Qed.

Lemma StronglySorted_lookup_lt {A : Type} (R : relation A) (l : list A)
    (i j : nat) (x y : A) :
  StronglySorted R l -> (i < j)%nat -> l !! i = Some x -> l !! j = Some y -> R x y.
Proof.
  intros Hs. revert i j. induction Hs as [|z l Hs IH Hall]; intros i j Hij Hi Hj.
  - discriminate.
  - destruct j as [|j]; [lia|]. destruct i as [|i].
    + injection Hi as ->. rewrite Forall_forall in Hall. apply Hall.
      eapply list_elem_of_lookup_2. exact Hj.
    + apply (IH i j); [lia | exact Hi | exact Hj].
Qed.

(** For any number of files, the list built with [heappush] holds every
    sender once, with its packet count. *)
Lemma for_each_heappush_Permutation (l : list Z) (k : nat) (heap heap' : list item) :
  for_each (fun '(turn_order, packet_count) heap => heappush heap (packet_count, turn_order))
    (zip (seq k (length l)) l) heap = Ok heap' ->
  heap' ≡ₚ heap ++ imap (fun i p => (p, (k + i)%nat)) l.
Proof.
  revert k heap. induction l as [|p l IH]; intros k heap.
  - intros [= <-]. simpl. rewrite app_nil_r. reflexivity.
  - simpl. destruct (heappush heap (p, k)) as [heap1|e] eqn:Hpush; [|discriminate].
    cbn. intros H. apply IH in H. rewrite H.
    rewrite (heappush_Permutation _ _ _ Hpush).
    rewrite Nat.add_0_r. simpl. rewrite <- Permutation_middle.
    apply Permutation_skip, Permutation_app_head.
    erewrite imap_ext; [reflexivity|]. intros i q _. simpl. f_equal. lia.
Qed.

Lemma file_order_indices_of_Permutation (needed : list Z) (heap : list item) :
  file_order_indices_of needed = Ok heap -> heap ≡ₚ jobs needed.
Proof.
  intros H. apply for_each_heappush_Permutation in H. rewrite H. reflexivity.
Qed.

End ProcessingOrder.

(** ** The scheduler against the specification *)

Section Refinement.

Import heapq TransmissionTimeStatisticalMultiplexingCalculator Spec.

(** The scheduler returns for one file and for two files only, with a
    nonzero payload size and a nonzero rate. *)
Lemma scheduler_Ok_inv (kd : known_data) (out : list (Qc * nat)) :
  calculate_transmission_time_statistical_multiplexing kd = Ok out ->
  packet_payload_size_bytes kd <> 0%Qc /\ total_link_rate_Mbps kd <> 0%Qc
  /\ ((exists s0, file_sizes_bytes kd = [s0])
      \/ (exists s0 s1, file_sizes_bytes kd = [s0; s1])).
Proof.
  intros H.
  destruct (file_sizes_bytes kd) as [|s0 sizes] eqn:Hf.
  { rewrite (scheduler_no_file kd Hf) in H. discriminate. }
  assert (Hne : file_sizes_bytes kd <> []) by (rewrite Hf; discriminate).
  destruct (decide (packet_payload_size_bytes kd = 0%Qc)) as [Hp|Hp].
  { rewrite (scheduler_zero_payload kd Hne Hp) in H. discriminate. }
  destruct (decide (total_link_rate_Mbps kd = 0%Qc)) as [Hr|Hr].
  { rewrite (scheduler_zero_rate kd Hne Hp Hr) in H. discriminate. }
  split; [exact Hp|]. split; [exact Hr|].
  destruct sizes as [|s1 [|s2 sizes]].
  - left. exists s0. reflexivity.
  - right. exists s0, s1. reflexivity.
  - rewrite scheduler_three_files in H; [discriminate | | exact Hp | exact Hr].
    rewrite Hf. simpl. lia.
Qed.

Lemma time_when_file_done_seconds_spec (kd : known_data) (total : Z) :
  time_when_file_done_seconds kd total = completion_time kd total.
Proof.
  unfold time_when_file_done_seconds, completion_time.
  assert (E : (float 1000 * float 1000)%Qc = float 1000000) by qc_decide.
  rewrite <- E, (Qcmult_assoc (total_link_rate_Mbps kd)). reflexivity.
Qed.

Lemma processing_order_one (p0 : Z) : processing_order [p0] = [(p0, 0%nat)].
Proof. reflexivity. Qed.

Lemma processing_order_two (p0 p1 : Z) :
  processing_order [p0; p1] = [first_of_two p0 p1; second_of_two p0 p1].
Proof.
  unfold processing_order, jobs, merge_sort, first_of_two, second_of_two. cbn.
  destruct (decide (job_le (p0, 0%nat) (p1, 1%nat))) as [Hle|Hle];
    destruct (item_lt (p1, 1%nat) (p0, 0%nat)) eqn:Hlt; try reflexivity.
  - apply item_lt_job_le in Hlt. contradiction.
  - exfalso. apply Hle. destruct (decide (job_le (p0, 0%nat) (p1, 1%nat))) as [?|Hn]; [trivial|].
    apply item_lt_job_le in Hn. congruence.
Qed.

(** Whenever the scheduler returns, it returns the schedule of the
    specification. *)
Lemma scheduler_refines_spec (kd : known_data) (out : list (Qc * nat)) :
  calculate_transmission_time_statistical_multiplexing kd = Ok out ->
  out = schedule kd.
Proof.
  intros H. destruct (scheduler_Ok_inv kd out H) as (Hp & Hr & [[s0 Hf]|(s0 & s1 & Hf)]).
  - rewrite (scheduler_one_file kd s0 Hf Hp Hr) in H. injection H as <-.
    unfold schedule, needed_packets. rewrite Hf. cbn [map].
    rewrite processing_order_one. cbn.
    rewrite time_when_file_done_seconds_spec. reflexivity.
  - rewrite (scheduler_two_files kd s0 s1 Hf Hp Hr) in H. injection H as <-.
    unfold schedule, needed_packets. rewrite Hf. cbn [map].
    rewrite processing_order_two. cbn.
    rewrite !time_when_file_done_seconds_spec. reflexivity.
Qed.

(** The output for the data of the [__main__] block. *)
Lemma main_scheduler_output :
  calculate_transmission_time_statistical_multiplexing main_known_data = Ok main_output.
Proof. qc_eval. Qed.

(** With two files of equal packet counts, the list of lines 63-65 is
    sorted and the tie is in turn order. *)
Lemma equal_counts_scheduler_output :
  calculate_transmission_time_statistical_multiplexing equal_counts_data
  = Ok equal_counts_output.
Proof. qc_eval. Qed.

(** *** The data of the [__main__] block *)

(** C5.  For the data of the [__main__] block (two senders, 3 MiB and
    165 KiB, 1000 bytes of payload and 24 of header, 5.2 Mbps, start 0):
    the files are of 3145728 and 168960 bytes and need 3146 and 169
    packets; the output has exactly two pairs, the first one with turn
    order 1 (the smaller file), and its time is less than that of the
    larger file. *)
Theorem main_scenario :
  file_sizes_bytes main_known_data = [float 3145728; float 168960]
  /\ needed_packets_of (file_sizes_bytes main_known_data)
       (packet_payload_size_bytes main_known_data) = Ok [3146; 169]
  /\ exists t_small t_large : Qc,
      calculate_transmission_time_statistical_multiplexing main_known_data
      = Ok [(t_small, 1%nat); (t_large, 0%nat)]
      /\ (t_small < t_large)%Qc.
Proof.
  split; [qc_eval|]. split; [vm_compute; reflexivity|].
  exists (Q2Qc (1664 # 3125)), (Q2Qc (15488 # 3125)).
  split; [exact main_scheduler_output|]. vm_compute. reflexivity.
Qed.

(** *** Where the scheduler departs from its purpose *)

(** C3 does not hold of the code.  For files of 2 and 3 packets shared by
    two senders, the first file is done after [2 * 2 = 4] packets and the
    second one is computed to be done after [(3 - 4) * (2 - 1) + 4 = 3]
    packets: the output is in processing order, and the second completion
    time is smaller than the first one. *)
Theorem completion_times_decrease :
  exists t0 t1 : Qc,
    calculate_transmission_time_statistical_multiplexing two_and_three_packets_data
    = Ok [(t0, 0%nat); (t1, 1%nat)]
    /\ t0 = completion_time two_and_three_packets_data 4
    /\ t1 = completion_time two_and_three_packets_data 3
    /\ (t1 < t0)%Qc /\ ~ (t0 <= t1)%Qc.
Proof.
  exists (Q2Qc (256 # 40625)), (Q2Qc (192 # 40625)).
  assert (Hlt : (Q2Qc (192 # 40625) < Q2Qc (256 # 40625))%Qc)
    by (vm_compute; reflexivity).
  split; [qc_eval|]. split; [qc_decide|]. split; [qc_decide|].
  split; [exact Hlt | apply Qclt_not_le, Hlt].
Qed.

(** C10 does not hold of the code.  With three files the loop reaches
    [index = 2] and reads [total_packets_at_each_file_done[1]], but that
    list has only the element it was created with: the call raises
    [IndexError] and returns no pair at all. *)
Theorem three_files_raise_IndexError :
  length (file_sizes_bytes three_files_data) = 3%nat
  /\ calculate_transmission_time_statistical_multiplexing three_files_data
     = Raise IndexError
  /\ forall out : list (Qc * nat),
      calculate_transmission_time_statistical_multiplexing three_files_data <> Ok out.
Proof.
  assert (H : calculate_transmission_time_statistical_multiplexing three_files_data
              = Raise IndexError) by (vm_compute; reflexivity).
  split; [reflexivity|]. split; [exact H|]. intros out. rewrite H. discriminate.
Qed.

(** C1 does not hold of the code.  With files of three, two and one
    packets, in that turn order, the list built at lines 63-65 is the heap
    [[(1, 2); (3, 0); (2, 1)]] and the loop reads it by index: the pair
    appended at [index = 1] is that of turn order 0, the largest file,
    ahead of turn order 1.  The senders sorted by needed packets are in
    the turn orders 2, 1, 0.  No sequence is returned at all: the call
    raises [IndexError] at [index = 2]. *)
Theorem three_files_read_in_heap_order :
  needed_packets_of (file_sizes_bytes descending_files_data)
    (packet_payload_size_bytes descending_files_data) = Ok [3; 2; 1]
  /\ file_order_indices_of [3; 2; 1] = Ok [(1, 2%nat); (3, 0%nat); (2, 1%nat)]
  /\ processing_order [3; 2; 1] = [(1, 2%nat); (2, 1%nat); (3, 0%nat)]
  /\ (exists t : Qc,
        loop_body_at descending_files_data [(1, 2%nat); (3, 0%nat); (2, 1%nat)] (1 * 3)
          1 [] = Ok [(t, 0%nat)])
  /\ calculate_transmission_time_statistical_multiplexing descending_files_data
     = Raise IndexError.
Proof.
  split; [vm_compute; reflexivity|]. split; [vm_compute; reflexivity|].
  split; [vm_compute; reflexivity|]. split; [|vm_compute; reflexivity].
  eexists. vm_compute. reflexivity.
Qed.

(** C6 does not hold of the code.  With files of two, two and one packets,
    in that turn order, the list built at lines 63-65 is
    [[(1, 2); (2, 1); (2, 0)]]: the two files that need two packets each
    are read with turn order 1 before turn order 0.  The pair appended at
    [index = 1] is that of turn order 1, and the call raises [IndexError]
    at [index = 2]. *)
Theorem three_files_tie_against_turn_order :
  needed_packets_of (file_sizes_bytes tied_files_data)
    (packet_payload_size_bytes tied_files_data) = Ok [2; 2; 1]
  /\ file_order_indices_of [2; 2; 1] = Ok [(1, 2%nat); (2, 1%nat); (2, 0%nat)]
  /\ processing_order [2; 2; 1] = [(1, 2%nat); (2, 0%nat); (2, 1%nat)]
  /\ (exists t : Qc,
        loop_body_at tied_files_data [(1, 2%nat); (2, 1%nat); (2, 0%nat)] (1 * 3)
          1 [] = Ok [(t, 1%nat)])
  /\ calculate_transmission_time_statistical_multiplexing tied_files_data
     = Raise IndexError.
Proof.
  split; [vm_compute; reflexivity|]. split; [vm_compute; reflexivity|].
  split; [vm_compute; reflexivity|]. split; [|vm_compute; reflexivity].
  eexists. vm_compute. reflexivity.
Qed.

(** C2 does not hold of the code.  With files of one, two and three
    packets shared by three senders, the first total is [1 * 3 = 3] and
    the total at [index = 1] is [(2 - 3) * (3 - 1) + 3 = 1], as the
    recurrence says.  At [index = 2] the recurrence gives
    [(3 - 1) * (3 - 2) + 1 = 3]; the code reads the previous total at
    [total_packets_at_each_file_done[1]] and raises [IndexError], whatever
    the list of times is, because that list still has the one element of
    line 74. *)
Theorem third_total_is_never_computed :
  file_order_indices_of [1; 2; 3] = Ok [(1, 0%nat); (2, 1%nat); (3, 2%nat)]
  /\ loop_body_at three_files_data [(1, 0%nat); (2, 1%nat); (3, 2%nat)] (1 * 3) 1 []
     = Ok [(completion_time three_files_data ((2 - 3) * (3 - 1) + 3), 1%nat)]
  /\ total_packets_at_done 3 (processing_order [1; 2; 3]) 1 = (2 - 3) * (3 - 1) + 3
  /\ total_packets_at_done 3 (processing_order [1; 2; 3]) 2 = (3 - 1) * (3 - 2) + 1
  /\ (forall times : list (Qc * nat),
        loop_body_at three_files_data [(1, 0%nat); (2, 1%nat); (3, 2%nat)] (1 * 3) 2 times
        = Raise IndexError)
  /\ calculate_transmission_time_statistical_multiplexing three_files_data
     = Raise IndexError.
Proof.
  split; [vm_compute; reflexivity|]. split; [qc_eval|].
  split; [vm_compute; reflexivity|]. split; [vm_compute; reflexivity|].
  split; [|vm_compute; reflexivity].
  intros times. reflexivity.
Qed.

(** On the outputs that the scheduler does return, every sender appears
    once. *)
Lemma scheduler_output_turn_orders (kd : known_data) (out : list (Qc * nat)) :
  calculate_transmission_time_statistical_multiplexing kd = Ok out ->
  length out = length (file_sizes_bytes kd)
  /\ out.*2 ≡ₚ seq 0 (length (file_sizes_bytes kd)).
Proof.
  intros H. rewrite (scheduler_refines_spec kd out H).
  assert (Hlen : length (needed_packets kd) = length (file_sizes_bytes kd))
    by apply length_map.
  assert (E : (schedule kd).*2 = (processing_order (needed_packets kd)).*2).
  { unfold schedule. cbv zeta. apply list_eq. intros k.
    rewrite !list_lookup_fmap, list_lookup_imap.
    destruct (processing_order (needed_packets kd) !! k); reflexivity. }
  split.
  - rewrite <- (length_fmap snd), E, length_fmap, processing_order_length. exact Hlen.
  - rewrite E, processing_order_turn_orders, Hlen. reflexivity.
Qed.

End Refinement.

(** ** Binary64 arithmetic *)

Section Binary64Arithmetic.

Import Binary64.

(** Fifty-two halvings of [2^52 * m] give [m] back, with nothing lost. *)
Lemma iter_shr_1_52 (m : positive) :
  SpecFloat.iter_pos shr_1 52 {| shr_m := Z.pos (4503599627370496 * m); shr_r := false; shr_s := false |}
  = {| shr_m := Z.pos m; shr_r := false; shr_s := false |}.
Proof. reflexivity. Qed.

Lemma digits2_pos_shift_52 (m : positive) :
  Z.pos (digits2_pos (4503599627370496 * m)) = Z.pos (digits2_pos m) + 52.
Proof. cbv [Pos.mul]. cbn [digits2_pos]. lia. Qed.

(** The IEEE product by [1.0 = 2^52 * 2^-52] is exact. *)
Lemma SFmul_1_r (x : spec_float) :
  valid_binary x = true ->
  SFmul prec emax x (S754_finite false 4503599627370496 (-52)) = x.
Proof.
  destruct x as [s | s | | s m e]; cbn [SFmul SpecFloat.valid_binary]; intros Hv.
  - now rewrite xorb_false_r.
  - now rewrite xorb_false_r.
  - reflexivity.
  - rewrite xorb_false_r.
    unfold bounded, canonical_mantissa in Hv.
    apply andb_prop in Hv as [Hc He]. apply Z.eqb_eq in Hc.
    rewrite (Pos.mul_comm m).
    unfold binary_round_aux, shr_fexp.
    cbn [Zdigits2]. rewrite digits2_pos_shift_52.
    replace (Z.pos (digits2_pos m) + 52 + (e + -52)) with (Z.pos (digits2_pos m) + e) by lia.
    rewrite Hc.
    replace (e - (e + -52)) with 52 by lia.
    unfold shr at 1. cbn [shr_record_of_loc]. rewrite iter_shr_1_52.
    cbn [shr_m loc_of_shr_record round_nearest_even].
    replace (e + -52 + 52) with e by lia.
    cbn [Zdigits2]. rewrite Hc, Z.sub_diag. cbn [shr shr_record_of_loc shr_m].
    now rewrite He.
Qed.

Lemma mul_1_r (x : binary64) : (x * 1)%float = x.
Proof.
  apply Prim2SF_inj. rewrite mul_spec.
  change (Prim2SF 1) with (S754_finite false 4503599627370496 (-52)).
  apply SFmul_1_r, Prim2SF_valid.
Qed.

Lemma float_mul_1 (x : binary64) : float_mul x (Int 1) = Ok x.
Proof.
  unfold float_mul. change (float (Int 1)) with (Ok 1%float). next_statement.
  now rewrite mul_1_r.
Qed.

Lemma float_mul_1000000 (x : binary64) :
  float_mul x (Int (1000 * 1000)) = Ok (x * 1000000)%float.
Proof. reflexivity. Qed.

Lemma truediv_nonzero (x y : binary64) :
  (y =? 0)%float = false -> truediv x y = Ok (x / y)%float.
Proof. unfold truediv. now intros ->. Qed.

Lemma truediv_zero (x y : binary64) :
  (y =? 0)%float = true -> truediv x y = Raise ZeroDivisionError.
Proof. unfold truediv. now intros ->. Qed.

(** The exact quotient of an integer by itself. *)
Lemma SFdiv_core_binary_diag (m : positive) :
  SFdiv_core_binary prec emax (Z.pos m) 0 (Z.pos m) 0
  = (9007199254740992, -53, loc_Exact).
Proof.
  unfold SFdiv_core_binary.
  replace (Zdigits2 (Z.pos m) + 0 - (Zdigits2 (Z.pos m) + 0)) with 0 by lia.
  change (Z.min (fexp prec emax 0) (0 - 0)) with (-53).
  change (0 - 0 - -53) with 53. cbv iota.
  assert (E : Z.div_eucl (Z.shiftl (Z.pos m) 53) (Z.pos m) = (9007199254740992, 0)).
  { rewrite Z.shiftl_mul_pow2 by lia.
    pose proof (Z.div_eucl_eq (Z.pos m * 2 ^ 53) (Z.pos m) ltac:(lia)) as H.
    pose proof (Z.mod_pos_bound (Z.pos m * 2 ^ 53) (Z.pos m) ltac:(lia)) as Hb.
    unfold Z.modulo in Hb.
    destruct (Z.div_eucl (Z.pos m * 2 ^ 53) (Z.pos m)) as [q r].
    change (2 ^ 53) with 9007199254740992 in *.
    assert (q = 9007199254740992) by nia. subst q.
    f_equal. lia. }
  rewrite E. unfold new_location.
  destruct (Z.even (Z.pos m)); reflexivity.
Qed.

Lemma int_truediv_diag (n : Z) : n <> 0 -> int_truediv n n = Ok 1%float.
Proof.
  intros Hn. unfold int_truediv. destruct (decide (n = 0)) as [|_]; [contradiction|].
  destruct n as [|m|m]; [contradiction| |];
    cbn [spec_float_of_int SFdiv]; rewrite SFdiv_core_binary_diag; reflexivity.
Qed.

End Binary64Arithmetic.

(** ** NetworkUtilizationCalculator.py in binary64 *)

Section Binary64NetworkUtilization.

Import Binary64 Binary64.NetworkUtilizationCalculator.

(** The statements of [calculate_transmission_time], one after the other. *)
Lemma calculate_transmission_time_steps (l : Z) (r : number) :
  calculate_transmission_time l r
  = (rate ← float r;
     bits ← float (Int (l * 8));
     transmission_time ← truediv bits (rate * 1000000)%float;
     Ok (transmission_time * 1000)%float).
Proof.
  unfold calculate_transmission_time. cbv zeta.
  destruct (float r) as [rate|e]; [|reflexivity]. next_statement.
  rewrite float_mul_1000000. next_statement.
  destruct (float (Int (l * 8))) as [bits|e]; [|reflexivity]. next_statement.
  destruct (truediv bits (rate * 1000000)) as [tt|e]; reflexivity.
Qed.

Lemma calculate_transmission_time_Ok_binary64 (l : Z) (r : number) (rate bits : binary64) :
  float r = Ok rate -> float (Int (l * 8)) = Ok bits ->
  (rate * 1000000 =? 0)%float = false ->
  calculate_transmission_time l r = Ok (bits / (rate * 1000000) * 1000)%float.
Proof.
  intros Hr Hb Hz. rewrite calculate_transmission_time_steps, Hr. next_statement.
  rewrite Hb. next_statement. rewrite (truediv_nonzero _ _ Hz). reflexivity.
Qed.

Lemma calculate_transmission_time_Raise_binary64 (l : Z) (r : number) (rate bits : binary64) :
  float r = Ok rate -> float (Int (l * 8)) = Ok bits ->
  (rate * 1000000 =? 0)%float = true ->
  calculate_transmission_time l r = Raise ZeroDivisionError.
Proof.
  intros Hr Hb Hz. rewrite calculate_transmission_time_steps, Hr. next_statement.
  rewrite Hb. next_statement. rewrite (truediv_zero _ _ Hz). reflexivity.
Qed.

(** C7, as stated, fails: a length of [10^400] bytes is an [int], and the
    conversion of its number of bits at line 19 raises [OverflowError]. *)
Lemma transmission_time_raises_OverflowError :
  calculate_transmission_time (10 ^ 400) (Int 1000) = Raise OverflowError.
Proof. vm_compute. reflexivity. Qed.

(** C7, amended.  When the rate and the number of bits [length_in_bytes * 8]
    convert to the floats [rate] and [bits], and [rate * 1000000] is not
    zero, [calculate_transmission_time] returns
    [bits / (rate * 1000000) * 1000], each operation in binary64; for
    [(1000, 1000)] that is [0.008]. *)
Theorem transmission_time_in_binary64 (l : Z) (r : number) (rate bits : binary64)
    (Hrate : float r = Ok rate) (Hbits : float (Int (l * 8)) = Ok bits)
    (Hnonzero : (rate * 1000000 =? 0)%float = false) :
  calculate_transmission_time l r = Ok (bits / (rate * 1000000) * 1000)%float
  /\ calculate_transmission_time 1000 (Int 1000) = Ok 0.008%float
  /\ calculate_transmission_time 1000 (Float 1000) = Ok 0.008%float.
Proof.
  split; [apply calculate_transmission_time_Ok_binary64; assumption|].
  split; reflexivity.
Qed.

Lemma transmission_time_in_binary64_witness :
  float (Int 1000) = Ok 1000%float
  /\ float (Int (1000 * 8)) = Ok 8000%float
  /\ (1000 * 1000000 =? 0)%float = false
  /\ calculate_transmission_time 1000 (Int 1000) = Ok (8000 / (1000 * 1000000) * 1000)%float.
Proof.
  split; [reflexivity|]. split; [reflexivity|]. split; [reflexivity|].
  exact (proj1 (transmission_time_in_binary64 1000 (Int 1000) 1000 8000
                  eq_refl eq_refl eq_refl)).
Defined.

(** The statements of [calculate_network_utilization] up to line 50. *)
Lemma calculate_network_utilization_steps (kd : known_data) (w : option Z) :
  calculate_network_utilization kd w
  = (rtt ← float (rtt_in_ms kd);
     tt ← calculate_transmission_time (length_in_bytes kd) (rate_in_Mbps kd);
     utilization ← truediv tt (tt + rtt)%float;
     match w with
     | None => Ok utilization
     | Some window_size =>
         c ← int_truediv window_size (length_in_bytes kd); Ok (utilization * c)%float
     end).
Proof.
  unfold calculate_network_utilization. cbv zeta.
  destruct (float (rtt_in_ms kd)) as [rtt|e]; [|reflexivity]. next_statement.
  destruct (calculate_transmission_time _ _) as [tt|e]; [|reflexivity]. next_statement.
  destruct (truediv tt (tt + rtt)) as [u|e]; [|reflexivity]. next_statement.
  destruct w as [w|].
  - destruct (int_truediv w (length_in_bytes kd)) as [c|e]; reflexivity.
  - next_statement. rewrite float_mul_1. reflexivity.
Qed.

Lemma calculate_network_utilization_None (kd : known_data) (rtt tt : binary64) :
  float (rtt_in_ms kd) = Ok rtt ->
  calculate_transmission_time (length_in_bytes kd) (rate_in_Mbps kd) = Ok tt ->
  (tt + rtt =? 0)%float = false ->
  calculate_network_utilization kd None = Ok (tt / (tt + rtt))%float.
Proof.
  intros Hrtt Htt Hz. rewrite calculate_network_utilization_steps, Hrtt. next_statement.
  rewrite Htt. next_statement. rewrite (truediv_nonzero _ _ Hz). reflexivity.
Qed.

Lemma calculate_network_utilization_Some_binary64 (kd : known_data) (w : Z) (rtt tt : binary64) :
  float (rtt_in_ms kd) = Ok rtt ->
  calculate_transmission_time (length_in_bytes kd) (rate_in_Mbps kd) = Ok tt ->
  (tt + rtt =? 0)%float = false ->
  calculate_network_utilization kd (Some w)
  = (c ← int_truediv w (length_in_bytes kd); Ok (tt / (tt + rtt) * c)%float).
Proof.
  intros Hrtt Htt Hz. rewrite calculate_network_utilization_steps, Hrtt. next_statement.
  rewrite Htt. next_statement. rewrite (truediv_nonzero _ _ Hz). reflexivity.
Qed.


(** C8, as stated, fails: with the data of [main] and a window of
    [10^400] bytes, the call without a window returns but the quotient
    [window_size / packet_length] of line 55 raises [OverflowError]. *)
Lemma utilization_window_raises_OverflowError :
  calculate_network_utilization main_known_data None = Ok 0.00026659557451346307%float
  /\ calculate_network_utilization main_known_data (Some (10 ^ 400)) = Raise OverflowError.
Proof. split; vm_compute; reflexivity. Qed.

(** C8, amended.  When the round-trip time converts to the float [rtt],
    the transmission time is [tt] and [tt + rtt] is not zero: without a
    window the call returns [tt / (tt + rtt)]; with a window for which the
    true division [window_size / length_in_bytes] gives the float [c], it
    returns exactly that value times [c].  The factor is a fraction, not
    a whole number of packets: [5020 / 1000] is [5.02]. *)
Theorem utilization_window_factor (kd : known_data) (rtt tt : binary64)
    (Hrtt : float (rtt_in_ms kd) = Ok rtt)
    (Htt : calculate_transmission_time (length_in_bytes kd) (rate_in_Mbps kd) = Ok tt)
    (Hnonzero : (tt + rtt =? 0)%float = false) :
  calculate_network_utilization kd None = Ok (tt / (tt + rtt))%float
  /\ (forall (w : Z) (c : binary64),
        int_truediv w (length_in_bytes kd) = Ok c ->
        calculate_network_utilization kd (Some w) = Ok (tt / (tt + rtt) * c)%float)
  /\ int_truediv 5020 1000 = Ok 5.02%float
  /\ exists u : binary64,
       calculate_network_utilization main_known_data None = Ok u
       /\ calculate_network_utilization main_known_data (Some 5020) = Ok (u * 5.02)%float.
Proof.
  split; [apply calculate_network_utilization_None; assumption|].
  split.
  - intros w c Hc.
    rewrite (calculate_network_utilization_Some_binary64 kd w rtt tt Hrtt Htt Hnonzero), Hc.
    reflexivity.
  - split; [reflexivity|]. exists 0.00026659557451346307%float. split; reflexivity.
Qed.

Lemma utilization_window_factor_witness :
  float (rtt_in_ms main_known_data) = Ok 30%float
  /\ calculate_transmission_time (length_in_bytes main_known_data) (rate_in_Mbps main_known_data)
     = Ok 0.008%float
  /\ (0.008 + 30 =? 0)%float = false
  /\ calculate_network_utilization main_known_data None = Ok (0.008 / (0.008 + 30))%float
  /\ calculate_network_utilization main_known_data (Some 5020)
     = Ok (0.008 / (0.008 + 30) * 5.02)%float.
Proof.
  split; [reflexivity|]. split; [reflexivity|]. split; [reflexivity|].
  destruct (utilization_window_factor main_known_data 30 0.008 eq_refl eq_refl eq_refl)
    as (Hnone & Hsome & Hc & _).
  split; [exact Hnone | exact (Hsome 5020 5.02%float Hc)].
Defined.









(** A sum [tt + rtt] that is zero with a positive length and a positive
    rate: a rate of [1e305] Mbps is an infinite rate in bits per second,
    the transmission time is [0.0], and with a round-trip time of zero the
    division of line 50 is by zero. *)
Lemma utilization_infinite_rate :
  calculate_network_utilization infinite_rate_data None = Raise ZeroDivisionError.
Proof. vm_compute. reflexivity. Qed.

End Binary64NetworkUtilization.

(** ** Line 57 in binary64 *)

Section Binary64PacketCounts.

Import Binary64 Binary64.TransmissionTimeStatisticalMultiplexingCalculator.

(** C4 does not hold of the code.  Line 57 rounds the quotient to binary64
    before [ceil] sees it.  A file of [2^53 + 1] bytes in payloads of one
    byte is given [2^53] packets, and a file of [3 * 10^16 + 1] bytes in
    payloads of [10^16] bytes is given 3 packets: in both cases the
    packets do not hold the file, and the first file is an exact multiple
    of its payload size. *)
Theorem needed_packets_undercount :
  needed_packets_of [Int 9007199254740993] (Int 1) = Ok [9007199254740992]
  /\ 9007199254740992 * 1 < 9007199254740993
  /\ needed_packets_of [Int 30000000000000001] (Int (10 ^ 16)) = Ok [3]
  /\ 3 * 10 ^ 16 < 30000000000000001.
Proof. repeat split; vm_compute; reflexivity. Qed.

End Binary64PacketCounts.

(** * Further properties *)

(** ** NetworkUtilizationCalculator.py *)

Section FurtherNetworkUtilization.

Import NetworkUtilizationCalculator.

(** X6.  A window of exactly one packet is the call without a window:
    for a nonzero length, [calculate_network_utilization] with
    [window_size = length_in_bytes] has the outcome (value or exception)
    of the call with [window_size = None]. *)
Theorem utilization_window_of_one_packet (kd : known_data) :
  length_in_bytes kd <> 0 ->
  calculate_network_utilization kd (Some (length_in_bytes kd))
  = calculate_network_utilization kd None.
Proof.
  intros Hl.
  destruct (calculate_network_utilization kd None) as [u|e] eqn:Hu.
  - rewrite (calculate_network_utilization_Some kd _ u Hu Hl). f_equal.
    pose proof (float_neq_0 _ Hl). field. assumption.
  - revert Hu. unfold calculate_network_utilization.
    destruct (calculate_transmission_time _ _) as [tt|e1]; [|trivial].
    cbn. destruct (truediv tt _) as [q|e2]; [|trivial].
    cbn. discriminate.
Qed.

Lemma utilization_window_of_one_packet_witness :
  calculate_network_utilization main_known_data (Some 1000)
  = calculate_network_utilization main_known_data None.
Proof.
  apply (utilization_window_of_one_packet main_known_data). simpl. lia.
Defined.

End FurtherNetworkUtilization.

(** ** The list built with [heappush], for any number of files *)

Section FurtherHeap.

Import heapq TransmissionTimeStatisticalMultiplexingCalculator Spec.

Lemma parent_index_lt (k : nat) : (0 < k)%nat -> (Nat.shiftr (k - 1) 1 < k)%nat.
Proof.
  intros Hk. change (Nat.div2 (k - 1) < k)%nat.
  pose proof (Nat.div2_decr (k - 1) (k - 1)). lia.
Qed.

Lemma item_lt_false (a b : item) : item_lt a b = false <-> job_le b a.
Proof.
  destruct (item_lt a b) eqn:H.
  - apply item_lt_job_le in H. split; [discriminate | contradiction].
  - split; [|reflexivity]. intros _.
    destruct (decide (job_le b a)) as [Hle|Hn]; [exact Hle|].
    apply item_lt_job_le in Hn. congruence.
Qed.

Lemma item_lt_true (a b : item) : item_lt a b = true -> job_le a b.
Proof.
  destruct a as [p a], b as [q b]. unfold item_lt, job_le. simpl.
  rewrite orb_true_iff, andb_true_iff, Z.ltb_lt, Z.eqb_eq, Nat.ltb_lt. lia.
Qed.

Lemma job_le_transitive (a b c : item) : job_le a b -> job_le b c -> job_le a c.
Proof. destruct a, b, c. unfold job_le. simpl. lia. Qed.

(** The loop of [_siftdown], started at [startpos = 0].  With [newitem]
    written at [pos], every entry but the one at [pos] is at least its
    parent, and the children of [pos] are at least the parent of [pos]:
    this is kept by every turn of the loop, and gives a heap when the loop
    ends. *)
Lemma _siftdown_loop_heap_ordered (heap : list item) (newitem : item) (startpos pos : nat)
    (heap' : list item) (pos' : nat) :
  startpos = 0%nat -> (pos < length heap)%nat ->
  (forall (k : nat) (child parent : item),
      (0 < k)%nat -> k <> pos ->
      <[pos := newitem]> heap !! k = Some child ->
      <[pos := newitem]> heap !! Nat.shiftr (k - 1) 1 = Some parent ->
      job_le parent child) ->
  (forall (k : nat) (child grandparent : item),
      (0 < k)%nat -> Nat.shiftr (k - 1) 1 = pos -> (0 < pos)%nat ->
      <[pos := newitem]> heap !! k = Some child ->
      <[pos := newitem]> heap !! Nat.shiftr (pos - 1) 1 = Some grandparent ->
      job_le grandparent child) ->
  _siftdown_loop heap newitem startpos pos = Ok (heap', pos') ->
  heap_ordered (<[pos' := newitem]> heap').
Proof.
  funelim (_siftdown_loop heap newitem startpos pos); intros -> Hpos HA HB Hloop.
  - pose proof (parent_index_lt pos l) as Hp.
    set (q := Nat.shiftr (pos - 1) 1) in *.
    destruct (lookup_lt_is_Some_2 heap q) as [pv Hpv]; [lia|].
    rewrite (proj2 (getitem_Ok heap _ pv) Hpv) in Hloop.
    change (Ok pv ≫= ?k) with (k pv) in Hloop. cbv beta in Hloop.
    assert (Hlq : <[pos := newitem]> heap !! q = Some pv).
    { rewrite list_lookup_insert_ne by lia. exact Hpv. }
    assert (Hlpos : <[pos := newitem]> heap !! pos = Some newitem).
    { apply list_lookup_insert_eq. exact Hpos. }
    destruct (item_lt newitem pv) eqn:Hlt.
    + apply (H pv heap' pos' eq_refl); [rewrite length_insert; lia | | | exact Hloop].
      * intros k child parent Hk Hkq Hc Hpar.
        destruct (decide (k = pos)) as [->|Hkpos].
        { rewrite list_lookup_insert_ne in Hc by lia.
          rewrite list_lookup_insert_eq in Hc by lia. injection Hc as <-.
          fold q in Hpar. rewrite list_lookup_insert_eq in Hpar
            by (rewrite length_insert; lia).
          injection Hpar as <-. apply item_lt_true, Hlt. }
        rewrite !list_lookup_insert_ne in Hc by lia.
        assert (Hc' : <[pos := newitem]> heap !! k = Some child).
        { rewrite list_lookup_insert_ne by lia. exact Hc. }
        destruct (decide (Nat.shiftr (k - 1) 1 = q)) as [Hkq'|Hkq'].
        { rewrite Hkq' in Hpar. rewrite list_lookup_insert_eq in Hpar
            by (rewrite length_insert; lia).
          injection Hpar as <-.
          apply (job_le_transitive _ pv); [apply item_lt_true, Hlt|].
          apply (HA k child pv Hk Hkpos Hc'). rewrite Hkq'. exact Hlq. }
        rewrite list_lookup_insert_ne in Hpar by lia.
        destruct (decide (Nat.shiftr (k - 1) 1 = pos)) as [Hkp|Hkp].
        { rewrite Hkp in Hpar. rewrite list_lookup_insert_eq in Hpar by lia.
          injection Hpar as <-.
          apply (HB k child pv Hk Hkp); [lia | exact Hc' | exact Hlq]. }
        rewrite list_lookup_insert_ne in Hpar by lia.
        apply (HA k child parent Hk Hkpos Hc').
        rewrite list_lookup_insert_ne by lia. exact Hpar.
      * intros k child grandparent Hk Hkq Hq Hc Hg.
        pose proof (parent_index_lt q Hq) as Hgq.
        pose proof (parent_index_lt k Hk) as Hkk.
        rewrite !list_lookup_insert_ne in Hg by lia.
        assert (Hgpv : job_le grandparent pv).
        { apply (HA q pv grandparent Hq); [lia | exact Hlq |].
          rewrite list_lookup_insert_ne by lia. exact Hg. }
        rewrite (list_lookup_insert_ne _ q k) in Hc by lia.
        destruct (decide (k = pos)) as [->|Hkpos].
        { rewrite list_lookup_insert_eq in Hc by lia. injection Hc as <-. exact Hgpv. }
        rewrite list_lookup_insert_ne in Hc by lia.
        apply (job_le_transitive _ pv); [exact Hgpv|].
        apply (HA k child pv Hk Hkpos).
        -- rewrite list_lookup_insert_ne by lia. exact Hc.
        -- rewrite Hkq. exact Hlq.
    + injection Hloop as <- <-.
      intros k child parent Hk Hc Hpar. apply item_lt_false.
      destruct (decide (k = pos)) as [->|Hkpos].
      * rewrite Hlpos in Hc. injection Hc as <-. fold q in Hpar.
        rewrite Hlq in Hpar. injection Hpar as <-. apply item_lt_false, Hlt.
      * apply (HA k child parent Hk Hkpos Hc Hpar).
  - injection Hloop as <- <-.
    intros k child parent Hk Hc Hpar. apply item_lt_false.
    apply (HA k child parent Hk); [lia | exact Hc | exact Hpar].
Qed.

(** [heappush] on a heap gives a heap. *)
Lemma heappush_heap_ordered (heap heap' : list item) (x : item) :
  heap_ordered heap -> heappush heap x = Ok heap' -> heap_ordered heap'.
Proof.
  intros Hord. unfold heappush, _siftdown.
  assert (Hlen : (length (heap ++ [x]) - 1)%nat = length heap).
  { rewrite length_app. simpl. lia. }
  rewrite Hlen.
  assert (Hx : (heap ++ [x]) !! length heap = Some x).
  { apply list_lookup_middle. reflexivity. }
  rewrite (proj2 (getitem_Ok _ _ _) Hx).
  change (Ok x ≫= ?k) with (k x). cbv beta.
  destruct (_siftdown_loop (heap ++ [x]) x 0 (length heap)) as [[heap1 pos1]|e] eqn:Hloop;
    [|discriminate].
  cbn. intros [= <-].
  refine (_siftdown_loop_heap_ordered _ _ _ _ _ _ eq_refl _ _ _ Hloop).
  - rewrite length_app. simpl. lia.
  - intros k child parent Hk Hne. rewrite (list_insert_id _ _ _ Hx).
    intros Hc Hpar. apply item_lt_false.
    assert (Hklt : (k < length heap)%nat).
    { apply lookup_lt_Some in Hc. rewrite length_app in Hc. simpl in Hc. lia. }
    pose proof (parent_index_lt k Hk).
    rewrite lookup_app_l in Hc by lia. rewrite lookup_app_l in Hpar by lia.
    apply (Hord k child parent Hk Hc Hpar).
  - intros k child grandparent Hk Hpk Hpos. rewrite (list_insert_id _ _ _ Hx).
    intros Hc _. exfalso.
    apply lookup_lt_Some in Hc. rewrite length_app in Hc. simpl in Hc.
    pose proof (parent_index_lt k Hk). lia.
Qed.

(** The first entry of a heap is a least entry. *)
Lemma heap_ordered_root_least (heap : list item) (root : item) :
  heap_ordered heap -> heap !! 0%nat = Some root ->
  forall (k : nat) (x : item), heap !! k = Some x -> job_le root x.
Proof.
  intros Hord Hroot k. induction (lt_wf k) as [k _ IH]. intros x Hx.
  destruct k as [|k].
  - rewrite Hroot in Hx. injection Hx as <-. destruct root. unfold job_le. simpl. lia.
  - pose proof (parent_index_lt (S k) ltac:(lia)) as Hp.
    destruct (lookup_lt_is_Some_2 heap (Nat.shiftr (S k - 1) 1)) as [p Hpv].
    { apply lookup_lt_Some in Hx. lia. }
    apply (job_le_transitive _ p).
    + apply (IH _ Hp p Hpv).
    + apply item_lt_false. apply (Hord (S k) x p); [lia | exact Hx | exact Hpv].
Qed.

Lemma heap_ordered_nil : heap_ordered [].
Proof. intros k child parent _ Hc. discriminate. Qed.

Lemma for_each_heappush_heap_ordered (l : list Z) (k : nat) (heap heap' : list item) :
  heap_ordered heap ->
  for_each (fun '(turn_order, packet_count) heap => heappush heap (packet_count, turn_order))
    (zip (seq k (length l)) l) heap = Ok heap' ->
  heap_ordered heap'.
Proof.
  revert k heap. induction l as [|p l IH]; intros k heap Hord.
  - intros [= <-]. exact Hord.
  - simpl. destruct (heappush heap (p, k)) as [heap1|e] eqn:Hpush; [|discriminate].
    cbn. apply IH. eapply heappush_heap_ordered; eassumption.
Qed.

Lemma file_order_indices_of_heap_ordered (needed : list Z) (heap : list item) :
  file_order_indices_of needed = Ok heap -> heap_ordered heap.
Proof. apply for_each_heappush_heap_ordered, heap_ordered_nil. Qed.

(** X9.  For any number of files, the list built at lines 63-65 is built
    without an exception, holds the pair [(packet_count, turn_order)] of
    every file exactly once, and is a heap: no entry is smaller than its
    parent. *)
Theorem file_order_indices_is_a_heap_of_all_files (needed_packets : list Z) :
  exists heap : list item,
    file_order_indices_of needed_packets = Ok heap
    /\ length heap = length needed_packets
    /\ heap ≡ₚ imap (fun turn_order packet_count => (packet_count, turn_order)) needed_packets
    /\ heap_ordered heap.
Proof.
  destruct (file_order_indices_of_Ok needed_packets) as (heap & H & Hlen).
  exists heap. split; [exact H|]. split; [exact Hlen|]. split.
  - apply (file_order_indices_of_Permutation needed_packets heap H).
  - apply (file_order_indices_of_heap_ordered needed_packets heap H).
Qed.

(** X10.  For any number of files, the first entry of the list built at
    lines 63-65 (the file treated first) is the file with the least packet
    count, the one of least turn order among equals: it is the head of the
    senders sorted by [(packet_count, turn_order)], and no other entry of
    the list is smaller. *)
Theorem file_order_indices_first_is_least (needed_packets : list Z) (heap : list item) :
  file_order_indices_of needed_packets = Ok heap ->
  heap !! 0%nat = processing_order needed_packets !! 0%nat
  /\ forall (first : item) (k : nat) (x : item),
       heap !! 0%nat = Some first -> heap !! k = Some x ->
       first.1 < x.1 \/ (first.1 = x.1 /\ (first.2 <= x.2)%nat).
Proof.
  intros H.
  pose proof (file_order_indices_of_heap_ordered _ _ H) as Hord.
  pose proof (file_order_indices_of_Permutation _ _ H) as Hperm.
  split; [|intros first k x H0 Hk; exact (heap_ordered_root_least heap first Hord H0 k x Hk)].
  assert (Hps : heap ≡ₚ processing_order needed_packets).
  { rewrite Hperm. symmetry. apply processing_order_Permutation. }
  destruct (heap !! 0%nat) as [r|] eqn:Hr.
  - destruct (processing_order needed_packets !! 0%nat) as [s|] eqn:Hs.
    + f_equal. apply job_le_antisymm.
      * assert (Hin : s ∈ heap).
        { rewrite Hps. eapply list_elem_of_lookup_2, Hs. }
        apply list_elem_of_lookup in Hin as [k Hk].
        exact (heap_ordered_root_least heap r Hord Hr k s Hk).
      * assert (Hin : r ∈ processing_order needed_packets).
        { rewrite <- Hps. eapply list_elem_of_lookup_2, Hr. }
        apply list_elem_of_lookup in Hin as [k Hk].
        destruct k as [|k].
        { rewrite Hs in Hk. injection Hk as ->. destruct r. unfold job_le. simpl. lia. }
        apply (StronglySorted_lookup_lt job_le _ 0 (S k) s r
                 (processing_order_sorted needed_packets)); [lia | exact Hs | exact Hk].
    + exfalso. apply lookup_ge_None in Hs. apply lookup_lt_Some in Hr.
      rewrite <- (Permutation_length Hps) in Hs. lia.
  - destruct (processing_order needed_packets !! 0%nat) as [s|] eqn:Hs; [|reflexivity].
    exfalso. apply lookup_ge_None in Hr. apply lookup_lt_Some in Hs.
    rewrite <- (Permutation_length Hps) in Hs. lia.
Qed.

Lemma file_order_indices_first_is_least_witness :
  [(1, 2%nat); (3, 0%nat); (2, 1%nat)] !! 0%nat = processing_order [3; 2; 1] !! 0%nat
  /\ forall (first : item) (k : nat) (x : item),
       [(1, 2%nat); (3, 0%nat); (2, 1%nat)] !! 0%nat = Some first ->
       [(1, 2%nat); (3, 0%nat); (2, 1%nat)] !! k = Some x ->
       first.1 < x.1 \/ (first.1 = x.1 /\ (first.2 <= x.2)%nat).
Proof.
  apply (file_order_indices_first_is_least [3; 2; 1]). vm_compute. reflexivity.
Defined.

End FurtherHeap.

(** ** The scheduler: outcomes and outputs *)

Section FurtherScheduler.

Import heapq TransmissionTimeStatisticalMultiplexingCalculator Spec.

(** X18.  Whenever the scheduler returns, its output has one pair per
    file, and the turn orders of the pairs are the numbers from 0 to the
    number of files minus one, each once. *)
Theorem scheduler_output_one_pair_per_file (kd : known_data) (out : list (Qc * nat)) :
  calculate_transmission_time_statistical_multiplexing kd = Ok out ->
  length out = length (file_sizes_bytes kd)
  /\ out.*2 ≡ₚ seq 0 (length (file_sizes_bytes kd))
  /\ NoDup out.*2.
Proof.
  intros H. destruct (scheduler_output_turn_orders kd out H) as [Hlen Hperm].
  split; [exact Hlen|]. split; [exact Hperm|].
  rewrite Hperm. apply NoDup_seq.
Qed.

Lemma scheduler_output_one_pair_per_file_witness :
  length main_output = length (file_sizes_bytes main_known_data)
  /\ main_output.*2 ≡ₚ seq 0 (length (file_sizes_bytes main_known_data))
  /\ NoDup main_output.*2.
Proof.
  apply (scheduler_output_one_pair_per_file main_known_data main_output).
  exact main_scheduler_output.
Defined.

End FurtherScheduler.

(** ** The calculators in binary64 *)

Section FurtherBinary64Utilization.

Import Binary64 Binary64.NetworkUtilizationCalculator.

(** X20.  In binary64 too, a window of exactly one packet is the call
    without a window: for a nonzero length the quotient
    [length_in_bytes / length_in_bytes] is [1.0], and the product by [1.0]
    is exact. *)
Theorem utilization_window_of_one_packet_binary64 (kd : known_data) :
  length_in_bytes kd <> 0 ->
  calculate_network_utilization kd (Some (length_in_bytes kd))
  = calculate_network_utilization kd None.
Proof.
  intros Hl. rewrite !calculate_network_utilization_steps.
  destruct (float (rtt_in_ms kd)) as [rtt|e]; [|reflexivity]. next_statement.
  destruct (calculate_transmission_time _ _) as [tt|e]; [|reflexivity]. next_statement.
  destruct (truediv tt (tt + rtt)) as [u|e]; [|reflexivity]. next_statement.
  rewrite (int_truediv_diag _ Hl). next_statement. now rewrite mul_1_r.
Qed.

Lemma utilization_window_of_one_packet_binary64_witness :
  calculate_network_utilization main_known_data (Some 1000)
  = calculate_network_utilization main_known_data None.
Proof.
  apply (utilization_window_of_one_packet_binary64 main_known_data). simpl. lia.
Defined.

(** X21.  When the rate and the number of bits convert to floats and the
    rate in bits per second is zero, [calculate_transmission_time] raises
    [ZeroDivisionError]; so it does for the rates [0] and [-0.0]. *)
Theorem transmission_time_zero_rate (l : Z) (r : number) (rate bits : binary64) :
  float r = Ok rate -> float (Int (l * 8)) = Ok bits ->
  (rate * 1000000 =? 0)%float = true ->
  calculate_transmission_time l r = Raise ZeroDivisionError
  /\ calculate_transmission_time 1000 (Int 0) = Raise ZeroDivisionError
  /\ calculate_transmission_time 1000 (Float (-0)) = Raise ZeroDivisionError.
Proof.
  intros Hr Hb Hz.
  split; [exact (calculate_transmission_time_Raise_binary64 l r rate bits Hr Hb Hz)|].
  split; reflexivity.
Qed.

Lemma transmission_time_zero_rate_witness :
  float (Int 0) = Ok 0%float
  /\ float (Int (1000 * 8)) = Ok 8000%float
  /\ (0 * 1000000 =? 0)%float = true
  /\ calculate_transmission_time 1000 (Int 0) = Raise ZeroDivisionError.
Proof.
  split; [reflexivity|]. split; [reflexivity|]. split; [reflexivity|].
  exact (proj1 (transmission_time_zero_rate 1000 (Int 0) 0 8000 eq_refl eq_refl eq_refl)).
Defined.

(** X22.  The values that [main] computes before it rounds them: a
    transmission time of [0.008] ms and, with the window of 5020 bytes, a
    utilization of [0.0013383097840575845]. *)
Theorem main_values_binary64 :
  calculate_transmission_time (length_in_bytes main_known_data) (rate_in_Mbps main_known_data)
  = Ok 0.008%float
  /\ calculate_network_utilization main_known_data (Some 5020)
     = Ok 0.0013383097840575845%float.
Proof. split; reflexivity. Qed.

End FurtherBinary64Utilization.

Section FurtherBinary64Scheduler.

Import heapq Binary64 Binary64.TransmissionTimeStatisticalMultiplexingCalculator.

(** X23.  The [__main__] block in binary64: the two sizes are 3145728 and
    168960 bytes, the packet counts are 3146 and 169, and the output is
    [[(0.53248, 1), (4.95616, 0)]]. *)
Theorem main_block_binary64 :
  mibs_to_bytes (Int 3) = Ok (Int 3145728)
  /\ kibs_to_bytes (Int 165) = Ok (Int 168960)
  /\ needed_packets_of (file_sizes_bytes main_known_data)
       (packet_payload_size_bytes main_known_data) = Ok [3146; 169]
  /\ calculate_transmission_time_statistical_multiplexing main_known_data
     = Ok [(0.53248%float, 1%nat); (4.95616%float, 0%nat)].
Proof. repeat split; vm_compute; reflexivity. Qed.

(** X24.  In binary64 too, files of 2 and 3 packets shared by two senders
    give a second completion time that is smaller than the first one. *)
Theorem completion_times_decrease_binary64 :
  calculate_transmission_time_statistical_multiplexing (with_files 2 [Int 2000; Int 3000])
  = Ok [(0.006301538461538462%float, 0%nat); (0.004726153846153846%float, 1%nat)]
  /\ (0.004726153846153846 <? 0.006301538461538462)%float = true.
Proof. split; vm_compute; reflexivity. Qed.

(** X25.  In binary64 too, three files raise [IndexError]. *)
Theorem three_files_raise_IndexError_binary64 :
  calculate_transmission_time_statistical_multiplexing
    (with_files 3 [Int 1000; Int 2000; Int 3000]) = Raise IndexError
  /\ calculate_transmission_time_statistical_multiplexing
       (with_files 3 [Int 3000; Int 2000; Int 1000]) = Raise IndexError
  /\ calculate_transmission_time_statistical_multiplexing
       (with_files 3 [Int 2000; Int 2000; Int 1000]) = Raise IndexError.
Proof. repeat split; vm_compute; reflexivity. Qed.

Lemma needed_packets_of_length (sizes : list number) (payload : number) (needed : list Z) :
  needed_packets_of sizes payload = Ok needed -> length needed = length sizes.
Proof.
  unfold needed_packets_of. revert needed.
  induction sizes as [|s sizes IH]; intros needed; cbn [comprehension].
  - intros [= <-]. reflexivity.
  - destruct (number_truediv s payload ≫= ceil) as [n|e]; [|discriminate].
    cbn [bind]. destruct (comprehension _ sizes) as [ns|e]; [|discriminate].
    cbn [bind]. intros [= <-]. cbn [length]. f_equal. apply IH. reflexivity.
Qed.

(** X26.  In binary64, whenever the scheduler returns a list, there are
    one or two files: with no file, and with three files or more, every
    call raises an exception. *)
Theorem scheduler_returns_only_for_one_or_two_files
    (kd : known_data) (out : list (binary64 * nat)) :
  calculate_transmission_time_statistical_multiplexing kd = Ok out ->
  length (file_sizes_bytes kd) = 1%nat \/ length (file_sizes_bytes kd) = 2%nat.
Proof.
  unfold calculate_transmission_time_statistical_multiplexing. cbv zeta.
  destruct (number_mul (total_link_rate_Mbps kd) (Int 1000)) as [kbps|e]; [|discriminate].
  next_statement.
  destruct (number_mul kbps (Int 1000)) as [bps|e]; [|discriminate]. next_statement.
  destruct (needed_packets_of _ _) as [needed|e] eqn:Hn; [|discriminate]. next_statement.
  apply needed_packets_of_length in Hn.
  destruct (number_add _ _) as [bytes|e]; [|discriminate]. next_statement.
  destruct (number_mul bytes (Int 8)) as [bits|e]; [|discriminate]. next_statement.
  destruct (file_order_indices_of_Ok needed) as (heap & -> & Hlen). next_statement.
  rewrite Hn in Hlen. rewrite <- Hlen.
  destruct heap as [|h0 [|h1 [|h2 heap]]]; [discriminate | now left | now right |].
  change (getitem (?h :: _) 0) with (Ok h). next_statement.
  destruct (time_when_done _ _ _ _) as [t0|e]; [|discriminate]. next_statement.
  cbn [length range seq Nat.sub for_each].
  destruct (loop_body _ _ _ _ _ _ 1 _) as [times|e]; [|discriminate].
  cbn [bind]. unfold loop_body at 1.
  change (getitem (_ :: _ :: ?h :: _) 2) with (Ok h). next_statement.
  discriminate.
Qed.

Lemma scheduler_returns_only_for_one_or_two_files_witness :
  length (file_sizes_bytes main_known_data) = 1%nat
  \/ length (file_sizes_bytes main_known_data) = 2%nat.
Proof.
  apply (scheduler_returns_only_for_one_or_two_files main_known_data
           [(0.53248%float, 1%nat); (4.95616%float, 0%nat)]).
  vm_compute. reflexivity.
Defined.

Lemma number_mul_by_int (x : number) (n : Z) (y : binary64) :
  float_of_int n = Ok y -> exists z : number, number_mul x (Int n) = Ok z.
Proof.
  intros Hy. destruct x as [a|x]; [eexists; reflexivity|].
  unfold number_mul. cbn [float]. rewrite Hy. eexists. reflexivity.
Qed.

(** X27.  In binary64, with an empty list of files and a sum
    [packet_header_size_bytes + packet_payload_size_bytes] that has a
    value, the scheduler raises [IndexError]: nothing is pushed on the
    list of lines 63-65, and line 71 reads its first entry. *)
Theorem scheduler_empty_file_list (kd : known_data) (bytes : number) :
  file_sizes_bytes kd = [] ->
  number_add (packet_header_size_bytes kd) (packet_payload_size_bytes kd) = Ok bytes ->
  calculate_transmission_time_statistical_multiplexing kd = Raise IndexError.
Proof.
  intros Hf Hb. unfold calculate_transmission_time_statistical_multiplexing. cbv zeta.
  destruct (number_mul_by_int (total_link_rate_Mbps kd) 1000 1000 eq_refl) as (kbps & ->).
  next_statement.
  destruct (number_mul_by_int kbps 1000 1000 eq_refl) as (bps & ->). next_statement.
  rewrite Hf. cbn [needed_packets_of comprehension]. next_statement.
  rewrite Hb. next_statement.
  destruct (number_mul_by_int bytes 8 8 eq_refl) as (bits & ->). next_statement.
  reflexivity.
Qed.

Lemma scheduler_empty_file_list_witness :
  calculate_transmission_time_statistical_multiplexing (with_files 0 []) = Raise IndexError.
Proof. apply (scheduler_empty_file_list (with_files 0 []) (Int 1024)); reflexivity. Defined.

End FurtherBinary64Scheduler.
